(** * Metropolia course FAQ assistant: the [/ask] and [/health] handlers

    A shallow embedding of [app.py]: Python values as an inductive type,
    Python [str] as a list of code points, the handler as a computation
    in a small state-and-exception monad whose state records the outbound
    chat-completion calls and the lines printed on standard output. *)

From Stdlib Require Import ZArith QArith.QArith_base SpecFloat Ascii String.
From stdpp Require Import base numbers list strings gmap pretty.

Local Open Scope Z_scope.

(** ** Python strings *)

(** A Python [str] is a sequence of Unicode code points; [len] counts
    code points. *)
Abbreviation str := (list N).

(** A source literal (all literals of [app.py] used by the handlers are
    ASCII) read as a [str]. *)
Definition lit (s : string) : str :=
  N_of_ascii <$> list_ascii_of_string s.
Arguments lit : simpl never.

(** [str.isspace] on one code point, as CPython's Unicode database has
    it (the characters [str.strip()] removes when called with no
    argument). *)
Definition isspace (c : N) : bool :=
  ((9 <=? c) && (c <=? 13) || (28 <=? c) && (c <=? 32) ||
   (c =? 133) || (c =? 160) || (c =? 5760) ||
   (8192 <=? c) && (c <=? 8202) ||
   (c =? 8232) || (c =? 8233) || (c =? 8239) || (c =? 8287) ||
   (c =? 12288))%N.

(** [s.lstrip()] *)
Fixpoint lstrip (s : str) : str :=
  match s with
  | c :: s' => if isspace c then lstrip s' else s
  | [] => []
  end.

(** [s.rstrip()] *)
Definition rstrip (s : str) : str := reverse (lstrip (reverse s)).

(** [s.strip()] *)
Definition strip (s : str) : str := rstrip (lstrip s).

(** [len(s)] *)
Definition len (s : str) : Z := Z.of_nat (length s).

(** [s.startswith(p)] *)
Fixpoint startswith (s p : str) : bool :=
  match p, s with
  | [], _ => true
  | _ :: _, [] => false
  | a :: p', b :: s' => (a =? b)%N && startswith s' p'
  end.

(** [p in s] for two strings. *)
Fixpoint contains (s p : str) : bool :=
  startswith s p ||
  match s with
  | [] => false
  | _ :: s' => contains s' p
  end.

(** [str(n)] for an integer. *)
Definition str_of_int (n : Z) : str := lit (pretty n).

(** Number of bytes of the UTF-8 encoding of one code point and of a
    string; only used to tell character counts from byte counts. *)
Definition utf8_width (c : N) : Z :=
  if (c <? 128)%N then 1 else if (c <? 2048)%N then 2
  else if (c <? 65536)%N then 3 else 4.

Definition utf8_len (s : str) : Z := foldr (fun c n => utf8_width c + n) 0 s.

(** ** Python values *)

(** The values [json.loads] produces, which is what [request.json] and
    [dict.get] hand to the handler, and what [jsonify] serialises. *)
#[warnings="-register-all"]
Inductive pyval : Type :=
| PNone
| PBool (b : bool)
| PInt (n : Z)
| PFloat (x : spec_float)
| PStr (s : str)
| PList (l : list pyval)
| PDict (d : gmap str pyval).

(** [type(v).__name__] *)
Definition type_name (v : pyval) : string :=
  match v with
  | PNone => "NoneType"
  | PBool _ => "bool"
  | PInt _ => "int"
  | PFloat _ => "float"
  | PStr _ => "str"
  | PList _ => "list"
  | PDict _ => "dict"
  end.

(** [bool(v)]: the truth value Python's [or] tests. *)
Definition truthy (v : pyval) : bool :=
  match v with
  | PNone => false
  | PBool b => b
  | PInt n => negb (n =? 0)
  | PFloat x => match x with S754_zero _ => false | _ => true end
  | PStr s => negb (bool_decide (s = []))
  | PList l => match l with [] => false | _ => true end
  | PDict d => negb (bool_decide (size d = 0%nat))
  end.

(** [a or b] *)
Definition py_or (a b : pyval) : pyval := if truthy a then a else b.

(** ** Exceptions, the outside world and the handler monad *)

(** An exception instance: its class name and [str(e)].  Every class
    raised below derives from [Exception], so [except Exception] catches
    all of them. *)
Record exn : Type := Exn { exn_class : string; exn_str : str }.

(** The [AttributeError] of looking up a missing attribute. *)
Definition AttributeError (v : pyval) (attr : string) : exn :=
  Exn "AttributeError"
      (lit ("'" +:+ type_name v +:+ "' object has no attribute '" +:+ attr +:+ "'")).

Definition IndexError_list : exn :=
  Exn "IndexError" (lit "list index out of range").

(** One entry of [messages] in the chat-completion request. *)
Record chat_message : Type := { role : str; content : str }.

(** The keyword arguments of [client.chat.completions.create]. *)
Record chat_request : Type := {
  model : str;
  messages : list chat_message;
  max_tokens : Z;
  temperature : Q
}.

(** The object [create] returns: [resp.choices[i].message.content],
    where [content] may be [None]. *)
Record completion_message : Type := { msg_content : option str }.
Record choice : Type := { message : completion_message }.
Record completion : Type := { choices : list choice }.

(** What one call of the remote API does. *)
Inductive outcome : Type :=
| Returns (resp : completion)
| Raises (e : exn).

(** What a request leaves behind: the calls sent to the remote API, in
    order, and the lines printed on standard output. *)
Record world : Type := { api_calls : list chat_request; stdout : list str }.

Inductive result (A : Type) : Type :=
| Ok (a : A)
| Raise (e : exn).
Arguments Ok {A} a.
Arguments Raise {A} e.

Definition M (A : Type) : Type := world -> result A * world.

#[global] Instance M_ret : MRet M := fun A a w => (Ok a, w).

#[global] Instance M_bind : MBind M := fun A B f m w =>
  match m w with
  | (Ok a, w') => f a w'
  | (Raise e, w') => (Raise e, w')
  end.

(** [raise e] *)
Definition raise {A : Type} (e : exn) : M A := fun w => (Raise e, w).

(** [try: m  except Exception as e: h e] *)
Definition try_except {A : Type} (m : M A) (h : exn -> M A) : M A := fun w =>
  match m w with
  | (Ok a, w') => (Ok a, w')
  | (Raise e, w') => h e w'
  end.

(** A surrogate code point (U+D800 to U+DFFF): UTF-8 does not encode
    it. *)
Definition is_surrogate (c : N) : bool := ((55296 <=? c) && (c <=? 57343))%N.

(** The number of surrogates a string starts with. *)
Fixpoint surrogate_run (s : str) : Z :=
  match s with
  | c :: s' => if is_surrogate c then 1 + surrogate_run s' else 0
  | [] => 0
  end.

(** The first run of surrogates of a string: the position of its first
    character, counted from [pos], that character, and the position of
    its last character. *)
Fixpoint first_surrogates (pos : Z) (s : str) : option (Z * N * Z) :=
  match s with
  | [] => None
  | c :: s' =>
      if is_surrogate c then Some (pos, c, pos + surrogate_run s')
      else first_surrogates (pos + 1) s'
  end.

(** The four lower-case hexadecimal digits of a code point below
    U+10000, as [%04x] prints them. *)
Definition hex_digit (d : N) : N := (if d <? 10 then 48 + d else 87 + d)%N.
Definition hex4 (c : N) : str :=
  [ hex_digit (c / 4096 mod 16); hex_digit (c / 256 mod 16);
    hex_digit (c / 16 mod 16); hex_digit (c mod 16) ]%N.

(** What [s.encode('utf-8')] raises under strict error handling, if
    anything: the [UnicodeEncodeError] of the first run of surrogates,
    with CPython's text for one character or for several. *)
Definition utf8_encode_error (s : str) : option exn :=
  match first_surrogates 0 s with
  | None => None
  | Some (start, c, stop) =>
      Some (Exn "UnicodeEncodeError"
              (if start =? stop then
                 lit "'utf-8' codec can't encode character '\u" ++ hex4 c ++
                 lit "' in position " ++ str_of_int start ++
                 lit ": surrogates not allowed"
               else
                 lit "'utf-8' codec can't encode characters in position " ++
                 str_of_int start ++ lit "-" ++ str_of_int stop ++
                 lit ": surrogates not allowed"))
  end.

(** [print(line)], with standard output a text stream in UTF-8 with
    strict error handling, which is Python's default: the line is encoded
    before anything is written, so a line that holds a surrogate raises
    and nothing is written. *)
Definition print (line : str) : M unit := fun w =>
  match utf8_encode_error line with
  | Some e => (Raise e, w)
  | None => (Ok tt, {| api_calls := api_calls w; stdout := stdout w ++ [line] |})
  end.

(** An HTTP response: status code and the value handed to [jsonify]. *)
Record response : Type := { status : Z; body : pyval }.

(** [jsonify(d)] returned alone is a 200 response; [jsonify(d), code]
    carries [code]. *)
Definition jsonify (d : gmap str pyval) : response := {| status := 200; body := PDict d |}.
Definition with_status (r : response) (code : Z) : response :=
  {| status := code; body := body r |}.

(** An exception of the web framework ([BadRequest],
    [UnsupportedMediaType]): its class name and its text, which is made
    of the framework's and the JSON decoder's own ASCII messages. *)
Record http_error : Type := { http_class : string; http_text : string }.

Definition framework_exn (e : http_error) : exn :=
  Exn (http_class e) (lit (http_text e)).
Coercion framework_exn : http_error >-> exn.

(** What [request.json] evaluates to inside the handler: the parsed body,
    or an exception raised by the framework when the body cannot be
    parsed as JSON. *)
Inductive request : Type :=
| JsonBody (data : pyval)
| NotJson (e : http_error).

(** ** The program *)

Definition TEXT_MAX_LENGTH : Z := 5000.
Definition QUESTION_MAX_LENGTH : Z := 300.
Definition TEXT_MIN_LENGTH : Z := 20.
Definition QUESTION_MIN_LENGTH : Z := 3.

Definition nl : str := [10%N].

Definition SYSTEM_PROMPT : str :=
  lit "You are an AI assistant designed to help students and staff at Metropolia UAS." ++ nl ++
  lit "Your role is to help with course materials, lecture notes, and educational questions." ++ nl ++
  lit "Provide clear, concise, and helpful answers. If the question is outside the scope of the provided text, say so." ++ nl ++
  lit "Keep responses focused and structured.".

Section Handlers.

(** The remote chat-completion service: its answer to a call may depend
    on the calls made before. *)
Variable upstream : list chat_request -> chat_request -> outcome.

(** [client.chat.completions.create(...)] with the keyword arguments
    [req]. *)
Definition create (req : chat_request) : M completion := fun w =>
  let w' := {| api_calls := api_calls w ++ [req]; stdout := stdout w |} in
  match upstream (api_calls w) req with
  | Returns resp => (Ok resp, w')
  | Raises e => (Raise e, w')
  end.

(** [l[0]] *)
Definition first_choice (l : list choice) : M choice :=
  match l with
  | c :: _ => mret c
  | [] => raise IndexError_list
  end.

(** [c.strip()] for the [content] attribute of a completion message. *)
Definition content_strip (c : option str) : M str :=
  match c with
  | Some s => mret (strip s)
  | None => raise (AttributeError PNone "strip")
  end.

Definition ask_model (prompt : str) (max_tokens : Z) : M str :=
  try_except
    (resp ← create {| model := lit "gpt-4o-mini";
                      messages := [ {| role := lit "system"; content := SYSTEM_PROMPT |};
                                    {| role := lit "user"; content := prompt |} ];
                      max_tokens := max_tokens;
                      temperature := 0.2 |};
     c ← first_choice (choices resp);
     content_strip (msg_content (message c)))
    (fun e => raise (Exn "Exception" (lit "API Error: " ++ exn_str e))).

(** The default of [ask_model]'s second parameter. *)
Definition ask_model_default_max_tokens : Z := 300.

(** [request.json] *)
Definition request_json (r : request) : M pyval :=
  match r with
  | JsonBody data => mret data
  | NotJson e => raise e
  end.

(** [data.get(key)] *)
Definition get (data : pyval) (key : str) : M pyval :=
  match data with
  | PDict d => mret (default PNone (d !! key))
  | _ => raise (AttributeError data "get")
  end.

(** [v.strip()] *)
Definition py_strip (v : pyval) : M str :=
  match v with
  | PStr s => mret (strip s)
  | _ => raise (AttributeError v "strip")
  end.

(** [(data.get(key) or '').strip()] *)
Definition field (data : pyval) (key : string) : M str :=
  v ← get data (lit key);
  py_strip (py_or v (PStr [])).

(** The f-string of line 88. *)
Definition build_prompt (text question : str) : str :=
  lit "Based on the following course material, please answer the question." ++ nl ++ nl ++
  lit "Course Material:" ++ nl ++ text ++ nl ++ nl ++
  lit "Question: " ++ question ++ nl ++ nl ++
  lit "Provide a clear and concise answer.".

Definition error_dict (msg : str) : gmap str pyval := {[ lit "error" := PStr msg ]}.

Definition msg_no_text : str := lit "Please provide lecture text.".
Definition msg_no_question : str := lit "Please enter a question.".
Definition msg_text_short : str :=
  lit "Lecture text is too short. Please provide more content.".
Definition msg_question_short : str :=
  lit "Question is too short. Please be more specific.".
Definition msg_text_long : str :=
  lit "Lecture text exceeds maximum length (" ++ str_of_int TEXT_MAX_LENGTH ++
  lit " characters). Please shorten it.".
Definition msg_question_long : str :=
  lit "Question exceeds maximum length (" ++ str_of_int QUESTION_MAX_LENGTH ++
  lit " characters). Please shorten it.".
Definition msg_generic : str := lit "An error occurred. Please try again later.".

(** Lines 75 to 91: the ordered checks on the normalised fields, then
    the prompt, the call of the adapter and the 200 response. *)
Definition ask_checks (text question : str) : M response :=
  if bool_decide (text = []) then
    mret (with_status (jsonify (error_dict msg_no_text)) 400)
  else if bool_decide (question = []) then
    mret (with_status (jsonify (error_dict msg_no_question)) 400)
  else if len text <? TEXT_MIN_LENGTH then
    mret (with_status (jsonify (error_dict msg_text_short)) 400)
  else if len question <? QUESTION_MIN_LENGTH then
    mret (with_status (jsonify (error_dict msg_question_short)) 400)
  else if len text >? TEXT_MAX_LENGTH then
    mret (with_status (jsonify (error_dict msg_text_long)) 400)
  else if len question >? QUESTION_MAX_LENGTH then
    mret (with_status (jsonify (error_dict msg_question_long)) 400)
  else
    answer ← ask_model (build_prompt text question) ask_model_default_max_tokens;
    mret (jsonify {[ lit "answer" := PStr answer ]}).

(** The body of the [try] block of [ask]: lines 69 to 72, then the
    checks. *)
Definition ask_try (r : request) : M response :=
  data ← request_json r;
  text ← field data "text";
  question ← field data "question";
  ask_checks text question.

(** The [except Exception as e] clause of [ask]. *)
Definition ask_except (e : exn) : M response :=
  _ ← print (lit "Error in /ask endpoint: " ++ exn_str e);
  mret (with_status (jsonify (error_dict msg_generic)) 500).

(** [POST /ask] *)
Definition ask (r : request) : M response :=
  try_except (ask_try r) ask_except.

(** [GET /health] *)
Definition health : M response :=
  mret (jsonify {[ lit "status" := PStr (lit "ok") ]}).

End Handlers.

(** ** Vocabulary of the specification *)

(** The validation table of the specification, in its order: each check
    with the message it answers. *)
Definition spec_checks (text question : str) : list (bool * str) :=
  [ (bool_decide (text = []), msg_no_text);
    (bool_decide (question = []), msg_no_question);
    (len text <? 20, msg_text_short);
    (len question <? 3, msg_question_short);
    (len text >? 5000, msg_text_long);
    (len question >? 300, msg_question_long) ].

(** The message of the first failing check of the table, if any. *)
Definition spec_first_failure (text question : str) : option str :=
  snd <$> List.find fst (spec_checks text question).

(** A response with a one-key JSON object as body. *)
Definition json_response (code : Z) (key : string) (value : str) : response :=
  {| status := code; body := PDict {[ lit key := PStr value ]} |}.

(** The chat-completion call the specification describes for a prompt. *)
Definition spec_call (prompt : str) : chat_request :=
  {| model := lit "gpt-4o-mini";
     messages := [ {| role := lit "system"; content := SYSTEM_PROMPT |};
                   {| role := lit "user"; content := prompt |} ];
     max_tokens := 300;
     temperature := 0.2 |}.

(** The text the remote call yields when it succeeds:
    [resp.choices[0].message.content], when the call returns, there is a
    first choice and its content is a string. *)
Definition model_output (o : outcome) : option str :=
  match o with
  | Returns resp =>
      match choices resp with
      | c :: _ => msg_content (message c)
      | [] => None
      end
  | Raises _ => None
  end.

(** The exception the adapter meets when the remote call does not yield
    a text. *)
Definition upstream_error (o : outcome) : exn :=
  match o with
  | Returns resp =>
      match choices resp with
      | _ :: _ => AttributeError PNone "strip"
      | [] => IndexError_list
      end
  | Raises e => e
  end.

(** The world after one more call. *)
Definition sent (w : world) (req : chat_request) : world :=
  {| api_calls := api_calls w ++ [req]; stdout := stdout w |}.

(** The world after one more printed line. *)
Definition printed (w : world) (line : str) : world :=
  {| api_calls := api_calls w; stdout := stdout w ++ [line] |}.

(** The shapes a run of [ask] can take: an answer with or without a
    call and a printed line, or the exception of the [print], before or
    after a call. *)
Inductive ask_shape (w : world) : result response * world -> Prop :=
| shape_rejected (msg : str) :
    ask_shape w (Ok (json_response 400 "error" msg), w)
| shape_failed_early (line : str) :
    ask_shape w (Ok (json_response 500 "error" msg_generic), printed w line)
| shape_answered (req : chat_request) (s : str) :
    ask_shape w (Ok (json_response 200 "answer" s), sent w req)
| shape_failed_upstream (req : chat_request) (line : str) :
    ask_shape w (Ok (json_response 500 "error" msg_generic), printed (sent w req) line)
| shape_raised_early (e : exn) :
    ask_shape w (Raise e, w)
| shape_raised_upstream (req : chat_request) (e : exn) :
    ask_shape w (Raise e, sent w req).

(** ** Sample requests and remote services *)

Definition w0 : world := {| api_calls := []; stdout := [] |}.

(** The JSON object with the two fields. *)
Definition json_body (text question : pyval) : gmap str pyval :=
  {[ lit "text" := text; lit "question" := question ]}.

Definition post (text question : pyval) : request :=
  JsonBody (PDict (json_body text question)).

(** A remote service that always answers [s]. *)
Definition upstream_answers (s : str) : list chat_request -> chat_request -> outcome :=
  fun _ _ => Returns {| choices := [ {| message := {| msg_content := Some s |} |} ] |}.

(** A remote service whose every call raises with text [msg]. *)
Definition upstream_raises (msg : str) : list chat_request -> chat_request -> outcome :=
  fun _ _ => Raises (Exn "Exception" msg).

(** ['c' * n] *)
Definition chars (c : N) (n : Z) : str := replicate (Z.to_nat n) c.

Definition lecture : str :=
  lit "This is a detailed lecture about machine learning basics and neural networks.".
Definition what_is_ml : str := lit "What is machine learning?".

(** ** Module start-up (lines 9 to 17) *)

(** How loading the module ends: the client is built with a key, or the
    process exits with a code. *)
Inductive startup_result : Type :=
| Started (api_key : str)
| Exited (code : Z).

(** The three lines printed when the key is missing; the first starts
    with U+274C. *)
Definition key_missing_lines : list str :=
  [ [10060%N] ++ lit " ERROR: OPENAI_API_KEY environment variable is not set.";
    lit "Please set it using: export OPENAI_API_KEY='your-key-here'";
    lit "Or create a .env file with: OPENAI_API_KEY=your-key-here" ].

(** [os.getenv(name)], over the environment as [load_dotenv()] leaves
    it. *)
Definition getenv (environ : gmap str str) (name : string) : option str :=
  environ !! lit name.

(** Lines 10 to 17: read the key, and exit with code 1 after three
    printed lines when [not api_key]; otherwise build the client with
    the key. *)
Definition startup (environ : gmap str str) (w : world) : startup_result * world :=
  let api_key := getenv environ "OPENAI_API_KEY" in
  if negb (truthy (from_option PStr PNone api_key)) then
    (Exited 1,
     {| api_calls := api_calls w; stdout := stdout w ++ key_missing_lines |})
  else
    (Started (default [] api_key), w).

(** ** More vocabulary *)

(** The line the [except] clause prints for an exception. *)
Definition log_line (e : exn) : str := lit "Error in /ask endpoint: " ++ exn_str e.

(** The exception the handler catches when the adapter fails. *)
Definition api_error (o : outcome) : exn :=
  Exn "Exception" (lit "API Error: " ++ exn_str (upstream_error o)).

(** [printable s]: standard output can encode [s]. *)
Definition printable (s : str) : bool := forallb (fun c => negb (is_surrogate c)) s.

(** Every way the [try] block of [ask] can raise: the exception the
    [except] clause catches and the world it catches it in. *)
Inductive handling_fails (upstream : list chat_request -> chat_request -> outcome)
    (w : world) : request -> exn -> world -> Prop :=
| fails_not_json (e : http_error) :
    handling_fails upstream w (NotJson e) e w
| fails_not_object (data : pyval) :
    (forall d, data <> PDict d) ->
    handling_fails upstream w (JsonBody data) (AttributeError data "get") w
| fails_bad_text (d : gmap str pyval) (e : exn) :
    field (PDict d) "text" w = (Raise e, w) ->
    handling_fails upstream w (JsonBody (PDict d)) e w
| fails_bad_question (d : gmap str pyval) (text : str) (e : exn) :
    field (PDict d) "text" w = (Ok text, w) ->
    field (PDict d) "question" w = (Raise e, w) ->
    handling_fails upstream w (JsonBody (PDict d)) e w
| fails_upstream (d : gmap str pyval) (text question : str) :
    field (PDict d) "text" w = (Ok text, w) ->
    field (PDict d) "question" w = (Ok question, w) ->
    spec_first_failure text question = None ->
    model_output (upstream (api_calls w) (spec_call (build_prompt text question))) = None ->
    handling_fails upstream w (JsonBody (PDict d))
      (api_error (upstream (api_calls w) (spec_call (build_prompt text question))))
      (sent w (spec_call (build_prompt text question))).

(** Every way a run of [ask] can go, with what decides it. *)
Inductive ask_outcome (upstream : list chat_request -> chat_request -> outcome)
    (w : world) : request -> result response * world -> Prop :=
| out_rejected (d : gmap str pyval) (text question msg : str) :
    field (PDict d) "text" w = (Ok text, w) ->
    field (PDict d) "question" w = (Ok question, w) ->
    spec_first_failure text question = Some msg ->
    ask_outcome upstream w (JsonBody (PDict d))
      (Ok (json_response 400 "error" msg), w)
| out_answered (d : gmap str pyval) (text question s : str) :
    field (PDict d) "text" w = (Ok text, w) ->
    field (PDict d) "question" w = (Ok question, w) ->
    spec_first_failure text question = None ->
    model_output (upstream (api_calls w) (spec_call (build_prompt text question))) = Some s ->
    ask_outcome upstream w (JsonBody (PDict d))
      (Ok (json_response 200 "answer" (strip s)),
       sent w (spec_call (build_prompt text question)))
| out_failed (r : request) (e : exn) (w' : world) :
    handling_fails upstream w r e w' ->
    utf8_encode_error (log_line e) = None ->
    ask_outcome upstream w r
      (Ok (json_response 500 "error" msg_generic), printed w' (log_line e))
| out_print_failed (r : request) (e e' : exn) (w' : world) :
    handling_fails upstream w r e w' ->
    utf8_encode_error (log_line e) = Some e' ->
    ask_outcome upstream w r (Raise e', w').

(** The normal form the specification gives a field of the body: the
    empty string when the field is absent or null, the string without
    the whitespace around it when it is a string.  The specification
    says nothing here of other values. *)
Definition spec_normalise (v : option pyval) : option str :=
  match v with
  | None | Some PNone => Some []
  | Some (PStr s) => Some (strip s)
  | Some _ => None
  end.

(** A string that neither starts nor ends with whitespace. *)
Definition no_outer_space (s : str) : bool :=
  match head s with Some c => negb (isspace c) | None => true end &&
  match last s with Some c => negb (isspace c) | None => true end.

(** The separator the prompt template puts between text and question. *)
Definition question_separator : str := nl ++ nl ++ lit "Question: ".

(** ** Running the monad *)

Lemma bind_ok {A B : Type} (m : M A) (f : A -> M B) (w w' : world) (a : A) :
  m w = (Ok a, w') -> (m ≫= f) w = f a w'.
Proof. intros H. unfold mbind, M_bind. now rewrite H. Qed.

Lemma bind_raise {A B : Type} (m : M A) (f : A -> M B) (w w' : world) (e : exn) :
  m w = (Raise e, w') -> (m ≫= f) w = (Raise e, w').
Proof. intros H. unfold mbind, M_bind. now rewrite H. Qed.

Lemma try_ok {A : Type} (m : M A) (h : exn -> M A) (w w' : world) (a : A) :
  m w = (Ok a, w') -> try_except m h w = (Ok a, w').
Proof. intros H. unfold try_except. now rewrite H. Qed.

Lemma try_raise {A : Type} (m : M A) (h : exn -> M A) (w w' : world) (e : exn) :
  m w = (Raise e, w') -> try_except m h w = h e w'.
Proof. intros H. unfold try_except. now rewrite H. Qed.

(** ** Stripping *)

Lemma lstrip_spaces (ws s : str) :
  forallb isspace ws = true -> lstrip (ws ++ s) = lstrip s.
Proof.
  induction ws as [|c ws IH]; simpl; [easy|].
  intros [Hc Hws]%andb_prop. rewrite Hc. now apply IH.
Qed.

Lemma lstrip_all_spaces (ws : str) :
  forallb isspace ws = true -> lstrip ws = [].
Proof.
  intros H. rewrite <- (app_nil_r ws). now rewrite lstrip_spaces.
Qed.

Lemma lstrip_app_nonblank (s t : str) :
  lstrip s <> [] -> lstrip (s ++ t) = lstrip s ++ t.
Proof.
  induction s as [|c s IH]; simpl; [easy|].
  destruct (isspace c); [exact IH | reflexivity].
Qed.

Lemma lstrip_blank_or_not (s : str) :
  forallb isspace s = true \/ lstrip s <> [].
Proof.
  induction s as [|c s IH]; simpl; [now left|].
  destruct (isspace c) eqn:Hc; [exact IH | now right].
Qed.

Lemma forallb_reverse {A : Type} (f : A -> bool) (l : list A) :
  forallb f (reverse l) = forallb f l.
Proof.
  induction l as [|a l IH]; [reflexivity|].
  rewrite reverse_cons, forallb_app, IH. simpl. destruct (f a), (forallb f l); reflexivity.
Qed.

Lemma rstrip_spaces (s ws : str) :
  forallb isspace ws = true -> rstrip (s ++ ws) = rstrip s.
Proof.
  intros H. unfold rstrip. rewrite reverse_app, lstrip_spaces; [reflexivity|].
  now rewrite forallb_reverse.
Qed.

Lemma strip_padding (ws1 s ws2 : str) :
  forallb isspace ws1 = true -> forallb isspace ws2 = true ->
  strip (ws1 ++ s ++ ws2) = strip s.
Proof.
  intros H1 H2. unfold strip. rewrite lstrip_spaces by exact H1.
  destruct (lstrip_blank_or_not s) as [Hs|Hs].
  - rewrite (lstrip_all_spaces s Hs), lstrip_all_spaces; [reflexivity|].
    rewrite forallb_app. now rewrite Hs, H2.
  - rewrite lstrip_app_nonblank by exact Hs. now apply rstrip_spaces.
Qed.

(** ** Normalisation of one field *)

Lemma field_dict (d : gmap str pyval) (key : string) (w : world) :
  field (PDict d) key w =
  py_strip (py_or (default PNone (d !! lit key)) (PStr [])) w.
Proof. reflexivity. Qed.

Lemma py_strip_frame (v : pyval) (w : world) : snd (py_strip v w) = w.
Proof. destruct v; reflexivity. Qed.

Lemma field_frame (data : pyval) (key : string) (w : world) :
  snd (field data key w) = w.
Proof.
  destruct data; try reflexivity. rewrite field_dict. apply py_strip_frame.
Qed.

Lemma field_absent (d : gmap str pyval) (key : string) (w : world) :
  d !! lit key = None -> field (PDict d) key w = (Ok [], w).
Proof. intros H. rewrite field_dict, H. reflexivity. Qed.

Lemma field_null (d : gmap str pyval) (key : string) (w : world) :
  d !! lit key = Some PNone -> field (PDict d) key w = (Ok [], w).
Proof. intros H. rewrite field_dict, H. reflexivity. Qed.

Lemma field_str (d : gmap str pyval) (key : string) (s : str) (w : world) :
  d !! lit key = Some (PStr s) -> field (PDict d) key w = (Ok (strip s), w).
Proof.
  intros H. rewrite field_dict, H. destruct s as [|c s]; reflexivity.
Qed.

Lemma field_truthy_other (d : gmap str pyval) (key : string) (v : pyval) (w : world) :
  d !! lit key = Some v -> truthy v = true -> (forall s, v <> PStr s) ->
  field (PDict d) key w = (Raise (AttributeError v "strip"), w).
Proof.
  intros H Ht Hs. rewrite field_dict, H. simpl. unfold py_or. rewrite Ht.
  destruct v; try reflexivity. now destruct (Hs s).
Qed.

(** The world is the same for every caller of [field]: its result does
    not depend on it. *)
Lemma field_any_world (data : pyval) (key : string) (w w' : world) :
  fst (field data key w) = fst (field data key w').
Proof.
  destruct data; try reflexivity. rewrite !field_dict.
  destruct (py_or _ _); reflexivity.
Qed.

(** ** The adapter *)

Lemma ask_model_run (upstream : list chat_request -> chat_request -> outcome)
    (prompt : str) (w : world) :
  ask_model upstream prompt ask_model_default_max_tokens w =
  (match model_output (upstream (api_calls w) (spec_call prompt)) with
   | Some s => Ok (strip s)
   | None => Raise (Exn "Exception"
               (lit "API Error: " ++
                exn_str (upstream_error (upstream (api_calls w) (spec_call prompt)))))
   end, sent w (spec_call prompt)).
Proof.
  unfold ask_model, try_except, mbind, M_bind, create.
  change {| model := _; messages := _; max_tokens := _; temperature := _ |}
    with (spec_call prompt).
  destruct (upstream (api_calls w) (spec_call prompt)) as [[[|[[[s|]]] cs]]|e];
    reflexivity.
Qed.

(** ** The checks *)

Lemma ask_checks_reject (upstream : list chat_request -> chat_request -> outcome)
    (text question msg : str) (w : world) :
  spec_first_failure text question = Some msg ->
  ask_checks upstream text question w = (Ok (json_response 400 "error" msg), w).
Proof.
  unfold spec_first_failure, spec_checks, ask_checks.
  unfold TEXT_MIN_LENGTH, QUESTION_MIN_LENGTH, TEXT_MAX_LENGTH, QUESTION_MAX_LENGTH.
  simpl.
  repeat (match goal with |- context [if ?b then _ else _] => destruct b end;
          simpl; [intros [= <-]; reflexivity|]).
  discriminate.
Qed.

Lemma ask_checks_accept (upstream : list chat_request -> chat_request -> outcome)
    (text question : str) (w : world) :
  spec_first_failure text question = None ->
  ask_checks upstream text question w =
  (ask_model upstream (build_prompt text question) ask_model_default_max_tokens ≫=
   (fun answer => mret (jsonify {[ lit "answer" := PStr answer ]}))) w.
Proof.
  unfold spec_first_failure, spec_checks, ask_checks.
  unfold TEXT_MIN_LENGTH, QUESTION_MIN_LENGTH, TEXT_MAX_LENGTH, QUESTION_MAX_LENGTH.
  simpl.
  repeat (match goal with |- context [if ?b then _ else _] => destruct b end;
          simpl; [discriminate|]).
  reflexivity.
Qed.

(** The table fails nowhere exactly when both lengths are in range. *)
Lemma spec_first_failure_None (text question : str) :
  spec_first_failure text question = None <->
  20 <= len text <= 5000 /\ 3 <= len question <= 300.
Proof.
  unfold spec_first_failure, spec_checks. simpl.
  assert (Ht : bool_decide (text = []) = (len text =? 0)).
  { destruct text; reflexivity. }
  assert (Hq : bool_decide (question = []) = (len question =? 0)).
  { destruct question; reflexivity. }
  rewrite Ht, Hq. clear Ht Hq.
  generalize (len text) (len question). intros n m.
  destruct (n =? 0) eqn:E1; simpl; [split; [discriminate | lia]|].
  destruct (m =? 0) eqn:E2; simpl; [split; [discriminate | lia]|].
  destruct (n <? 20) eqn:E3; simpl; [split; [discriminate | lia]|].
  destruct (m <? 3) eqn:E4; simpl; [split; [discriminate | lia]|].
  destruct (n >? 5000) eqn:E5; simpl; [split; [discriminate | lia]|].
  destruct (m >? 300) eqn:E6; simpl; [split; [discriminate | lia]|].
  split; [intros _; lia | reflexivity].
Qed.

(** ** What standard output can encode *)

Lemma first_surrogates_None (pos : Z) (s : str) :
  first_surrogates pos s = None <-> printable s = true.
Proof.
  revert pos. induction s as [|c s IH]; intros pos; simpl; [easy|].
  destruct (is_surrogate c); simpl; [split; discriminate | apply IH].
Qed.

Lemma utf8_encode_error_None (s : str) :
  utf8_encode_error s = None <-> printable s = true.
Proof.
  unfold utf8_encode_error. rewrite <- (first_surrogates_None 0 s).
  destruct (first_surrogates 0 s) as [[[start c] stop]|]; split; easy.
Qed.

Lemma printable_app (a b : str) :
  printable (a ++ b) = true <-> printable a = true /\ printable b = true.
Proof. unfold printable. rewrite forallb_app. apply andb_true_iff. Qed.

Lemma printable_lit (s : string) : printable (lit s) = true.
Proof.
  unfold lit, printable. induction s as [|c s IH]; [reflexivity|].
  change (negb (is_surrogate (N_of_ascii c)) &&
          forallb (fun c => negb (is_surrogate c))
            (N_of_ascii <$> list_ascii_of_string s) = true).
  rewrite IH, andb_true_r. unfold is_surrogate.
  pose proof (N_ascii_bounded c) as Hc.
  destruct (N.leb_spec 55296 (N_of_ascii c)); [lia | reflexivity].
Qed.

Lemma log_line_printable (e : exn) :
  printable (exn_str e) = true -> utf8_encode_error (log_line e) = None.
Proof.
  intros H. apply utf8_encode_error_None. unfold log_line.
  apply printable_app. split; [apply printable_lit | exact H].
Qed.

Lemma AttributeError_printable (v : pyval) (attr : string) :
  printable (exn_str (AttributeError v attr)) = true.
Proof. apply printable_lit. Qed.

(** ** Running the handler *)

(** The [except] clause: the generic answer after the printed line, or
    the exception of the [print]. *)
Lemma ask_except_run (e : exn) (w : world) :
  ask_except e w =
  match utf8_encode_error (log_line e) with
  | None => (Ok (json_response 500 "error" msg_generic), printed w (log_line e))
  | Some e' => (Raise e', w)
  end.
Proof.
  unfold ask_except, mbind, M_bind, print.
  change (lit "Error in /ask endpoint: " ++ exn_str e) with (log_line e).
  now destruct (utf8_encode_error (log_line e)).
Qed.

Lemma ask_except_calls (e : exn) (w : world) :
  api_calls (snd (ask_except e w)) = api_calls w.
Proof. rewrite ask_except_run. now destruct (utf8_encode_error _). Qed.

Lemma ask_caught (upstream : list chat_request -> chat_request -> outcome)
    (r : request) (w w' : world) (e : exn) :
  ask_try upstream r w = (Raise e, w') ->
  ask upstream r w = ask_except e w'.
Proof. intros H. unfold ask. now rewrite (try_raise _ _ _ _ _ H). Qed.

(** The generic answer of the [except] clause, for an exception whose
    text standard output can encode. *)
Lemma ask_raise (upstream : list chat_request -> chat_request -> outcome)
    (r : request) (w w' : world) (e : exn) :
  ask_try upstream r w = (Raise e, w') ->
  printable (exn_str e) = true ->
  ask upstream r w =
  (Ok (json_response 500 "error" msg_generic),
   printed w' (lit "Error in /ask endpoint: " ++ exn_str e)).
Proof.
  intros H Hp. rewrite (ask_caught _ _ _ _ _ H), ask_except_run.
  now rewrite (log_line_printable e Hp).
Qed.

Lemma ask_try_dict (upstream : list chat_request -> chat_request -> outcome)
    (d : gmap str pyval) (text question : str) (w : world) :
  field (PDict d) "text" w = (Ok text, w) ->
  field (PDict d) "question" w = (Ok question, w) ->
  ask_try upstream (JsonBody (PDict d)) w = ask_checks upstream text question w.
Proof.
  intros Ht Hq. unfold ask_try.
  change ((field (PDict d) "text" ≫= fun text =>
           field (PDict d) "question" ≫= fun question =>
           ask_checks upstream text question) w = ask_checks upstream text question w).
  rewrite (bind_ok _ _ _ _ _ Ht). now rewrite (bind_ok _ _ _ _ _ Hq).
Qed.

Lemma ask_rejected (upstream : list chat_request -> chat_request -> outcome)
    (d : gmap str pyval) (text question msg : str) (w : world) :
  field (PDict d) "text" w = (Ok text, w) ->
  field (PDict d) "question" w = (Ok question, w) ->
  spec_first_failure text question = Some msg ->
  ask upstream (JsonBody (PDict d)) w = (Ok (json_response 400 "error" msg), w).
Proof.
  intros Ht Hq Hf. unfold ask. apply try_ok.
  rewrite (ask_try_dict _ _ _ _ _ Ht Hq). now apply ask_checks_reject.
Qed.

Lemma ask_accepted (upstream : list chat_request -> chat_request -> outcome)
    (d : gmap str pyval) (text question : str) (w : world) :
  field (PDict d) "text" w = (Ok text, w) ->
  field (PDict d) "question" w = (Ok question, w) ->
  spec_first_failure text question = None ->
  ask upstream (JsonBody (PDict d)) w =
  match model_output (upstream (api_calls w) (spec_call (build_prompt text question))) with
  | Some s =>
      (Ok (json_response 200 "answer" (strip s)),
       sent w (spec_call (build_prompt text question)))
  | None =>
      ask_except
        (api_error (upstream (api_calls w) (spec_call (build_prompt text question))))
        (sent w (spec_call (build_prompt text question)))
  end.
Proof.
  intros Ht Hq Hf.
  pose proof (ask_model_run upstream (build_prompt text question) w) as Hm.
  destruct (model_output _) as [s|].
  - unfold ask. apply try_ok.
    rewrite (ask_try_dict _ _ _ _ _ Ht Hq), ask_checks_accept by exact Hf.
    now rewrite (bind_ok _ _ _ _ _ Hm).
  - apply ask_caught.
    rewrite (ask_try_dict _ _ _ _ _ Ht Hq), ask_checks_accept by exact Hf.
    now rewrite (bind_raise _ _ _ _ _ Hm).
Qed.

Lemma field_result (data : pyval) (key : string) (w : world) :
  (exists s, field data key w = (Ok s, w)) \/ (exists e, field data key w = (Raise e, w)).
Proof.
  pose proof (field_frame data key w) as Hw.
  destruct (field data key w) as [[s|e] w1]; simpl in Hw; subst w1; eauto.
Qed.

Lemma ask_try_bad_text (upstream : list chat_request -> chat_request -> outcome)
    (data : pyval) (e : exn) (w : world) :
  field data "text" w = (Raise e, w) ->
  ask_try upstream (JsonBody data) w = (Raise e, w).
Proof.
  intros Ht. unfold ask_try.
  change ((field data "text" ≫= fun text =>
           field data "question" ≫= fun question =>
           ask_checks upstream text question) w = (Raise e, w)).
  now rewrite (bind_raise _ _ _ _ _ Ht).
Qed.

Lemma ask_try_bad_question (upstream : list chat_request -> chat_request -> outcome)
    (data : pyval) (text : str) (e : exn) (w : world) :
  field data "text" w = (Ok text, w) ->
  field data "question" w = (Raise e, w) ->
  ask_try upstream (JsonBody data) w = (Raise e, w).
Proof.
  intros Ht Hq. unfold ask_try.
  change ((field data "text" ≫= fun text =>
           field data "question" ≫= fun question =>
           ask_checks upstream text question) w = (Raise e, w)).
  rewrite (bind_ok _ _ _ _ _ Ht). now rewrite (bind_raise _ _ _ _ _ Hq).
Qed.

(** When the [try] block raises, the handler runs the [except] clause on
    what it caught. *)
Lemma handling_fails_caught (upstream : list chat_request -> chat_request -> outcome)
    (r : request) (w w' : world) (e : exn) :
  handling_fails upstream w r e w' -> ask upstream r w = ask_except e w'.
Proof.
  intros [e0|data Hno|d e0 Ht|d text e0 Ht Hq|d text question Ht Hq Hf Ho].
  - now apply ask_caught.
  - apply ask_caught. destruct data; try reflexivity. now destruct (Hno d).
  - apply ask_caught. now apply ask_try_bad_text.
  - apply ask_caught. now apply (ask_try_bad_question upstream _ text).
  - rewrite (ask_accepted upstream d text question w Ht Hq Hf). now rewrite Ho.
Qed.

Lemma handling_fails_world (upstream : list chat_request -> chat_request -> outcome)
    (r : request) (w w' : world) (e : exn) :
  handling_fails upstream w r e w' ->
  stdout w' = stdout w /\ (w' = w \/ exists req, w' = sent w req).
Proof. intros []; (split; [reflexivity|]); eauto. Qed.

(** Every run of [ask] is one of the four outcomes. *)
Lemma ask_outcome_total (upstream : list chat_request -> chat_request -> outcome)
    (r : request) (w : world) :
  ask_outcome upstream w r (ask upstream r w).
Proof.
  assert (Hfail : forall e w', handling_fails upstream w r e w' ->
                    ask_outcome upstream w r (ask upstream r w)).
  { intros e w' Hf. rewrite (handling_fails_caught upstream r w w' e Hf), ask_except_run.
    destruct (utf8_encode_error (log_line e)) as [e'|] eqn:Hp.
    - now apply (out_print_failed upstream w r e e' w').
    - now apply out_failed. }
  destruct r as [data|e]; [|apply (Hfail e w); constructor].
  assert (Hobj : (exists d, data = PDict d) \/ (forall d, data <> PDict d)).
  { destruct data; try (right; intros d0; discriminate). left. eauto. }
  destruct Hobj as [[d ->]|Hno]; [|apply (Hfail (AttributeError data "get") w); now constructor].
  destruct (field_result (PDict d) "text" w) as [[text Ht]|[e Ht]];
    [|apply (Hfail e w); now constructor].
  destruct (field_result (PDict d) "question" w) as [[question Hq]|[e Hq]];
    [|apply (Hfail e w); now apply (fails_bad_question upstream w d text)].
  destruct (spec_first_failure text question) as [msg|] eqn:Hf.
  - rewrite (ask_rejected _ _ _ _ _ _ Ht Hq Hf). now apply (out_rejected _ _ d text question).
  - destruct (model_output (upstream (api_calls w) (spec_call (build_prompt text question))))
      as [s|] eqn:Ho.
    + rewrite (ask_accepted _ _ _ _ _ Ht Hq Hf), Ho. now apply out_answered.
    + apply (Hfail _ _ (fails_upstream upstream w d text question Ht Hq Hf Ho)).
Qed.

Lemma ask_shapes (upstream : list chat_request -> chat_request -> outcome)
    (r : request) (w : world) :
  ask_shape w (ask upstream r w).
Proof.
  destruct (ask_outcome_total upstream r w) as
    [d text question msg Ht Hq Hf|d text question s Ht Hq Hf Ho
     |r e w' Hfail Hp|r e e' w' Hfail Hp].
  - constructor.
  - constructor.
  - destruct (handling_fails_world upstream r w w' e Hfail) as [_ [->|[req ->]]];
      constructor.
  - destruct (handling_fails_world upstream r w w' e Hfail) as [_ [->|[req ->]]];
      constructor.
Qed.

(** The checks of the table only look at the two character counts. *)
Lemma spec_checks_len (text question : str) :
  spec_checks text question =
  [ (len text =? 0, msg_no_text); (len question =? 0, msg_no_question);
    (len text <? 20, msg_text_short); (len question <? 3, msg_question_short);
    (len text >? 5000, msg_text_long); (len question >? 300, msg_question_long) ].
Proof. destruct text, question; reflexivity. Qed.

Ltac decide_checks :=
  unfold spec_first_failure; rewrite spec_checks_len; simpl;
  repeat match goal with
    | |- context [?a >? ?b] => rewrite (Z.gtb_ltb a b)
    | |- context [?a =? ?b] => destruct (Z.eqb_spec a b); simpl
    | |- context [?a <? ?b] => destruct (Z.ltb_spec a b); simpl
    end;
  try reflexivity; try lia.

Lemma startswith_prefix (s p x : str) :
  startswith s (p ++ x) = true -> startswith s p = true.
Proof.
  revert s. induction p as [|a p IH]; intros [|b s]; simpl; try easy.
  intros [? ?]%andb_prop. apply andb_true_intro. split; [easy|now apply IH].
Qed.

Lemma contains_unfold (s p : str) :
  contains s p =
  startswith s p || match s with [] => false | _ :: s' => contains s' p end.
Proof. destruct s; reflexivity. Qed.

Lemma contains_prefix_false (s p x : str) :
  contains s p = false -> contains s (p ++ x) = false.
Proof.
  induction s as [|b s IH].
  - rewrite (contains_unfold [] p), (contains_unfold [] (p ++ x)).
    intros [H1 _]%orb_false_elim.
    destruct (startswith [] (p ++ x)) eqn:E; [|reflexivity].
    apply startswith_prefix in E. congruence.
  - rewrite (contains_unfold (b :: s) p), (contains_unfold (b :: s) (p ++ x)).
    intros [H1 H2]%orb_false_elim.
    destruct (startswith (b :: s) (p ++ x)) eqn:E; [|now apply IH].
    apply startswith_prefix in E. congruence.
Qed.

(** ** What the answer depends on *)

(** The handler reads the body only through its two normalised fields. *)
Lemma ask_ext (upstream : list chat_request -> chat_request -> outcome)
    (data data' : pyval) (w : world) :
  (forall w1, field data "text" w1 = field data' "text" w1) ->
  (forall w1, field data "question" w1 = field data' "question" w1) ->
  ask upstream (JsonBody data) w = ask upstream (JsonBody data') w.
Proof.
  intros Ht Hq. unfold ask, try_except, ask_try.
  change ((request_json (JsonBody data) ≫= ?f) w) with (f data w).
  change ((request_json (JsonBody data') ≫= ?f) w) with (f data' w).
  cbv beta. unfold mbind, M_bind. rewrite Ht.
  destruct (field data' "text" w) as [[text|e] w1]; [|reflexivity].
  now rewrite Hq.
Qed.

Lemma key_text_question : lit "text" <> lit "question".
Proof. vm_compute. discriminate. Qed.

(** Replacing one field by a string with the same normal form changes
    nothing. *)
Lemma ask_replace_field (upstream : list chat_request -> chat_request -> outcome)
    (d : gmap str pyval) (k : string) (s : str) (w : world) :
  k = "text" \/ k = "question" ->
  (forall w1, field (PDict d) k w1 = (Ok (strip s), w1)) ->
  ask upstream (JsonBody (PDict d)) w =
  ask upstream (JsonBody (PDict (<[lit k := PStr s]> d))) w.
Proof.
  intros Hk Hf.
  assert (Hnew : forall w1, field (PDict (<[lit k := PStr s]> d)) k w1 = (Ok (strip s), w1)).
  { intros w1. apply field_str. apply lookup_insert_eq. }
  pose proof key_text_question as Hne.
  destruct Hk as [-> | ->]; apply ask_ext; intros w1.
  - now rewrite Hf, Hnew.
  - rewrite !field_dict, lookup_insert_ne; [reflexivity | exact Hne].
  - rewrite !field_dict, lookup_insert_ne; [reflexivity | now apply not_eq_sym].
  - now rewrite Hf, Hnew.
Qed.

Lemma json_response_inj (code : Z) (key : string) (a b : str) :
  json_response code key a = json_response code key b -> a = b.
Proof.
  intros H.
  apply (f_equal (fun r => match body r with PDict m => m !! lit key | _ => None end)) in H.
  change (({[lit key := PStr a]} : gmap str pyval) !! lit key =
          ({[lit key := PStr b]} : gmap str pyval) !! lit key) in H.
  rewrite !lookup_singleton_eq in H. now injection H.
Qed.

(** A 400 answer is exactly a failing check of the table. *)
Lemma ask_rejects_iff (upstream : list chat_request -> chat_request -> outcome)
    (d : gmap str pyval) (text question msg : str) (w : world) :
  field (PDict d) "text" w = (Ok text, w) ->
  field (PDict d) "question" w = (Ok question, w) ->
  fst (ask upstream (JsonBody (PDict d)) w) = Ok (json_response 400 "error" msg) <->
  spec_first_failure text question = Some msg.
Proof.
  intros Ht Hq. split.
  - destruct (spec_first_failure text question) as [msg'|] eqn:Hf.
    + rewrite (ask_rejected upstream d text question msg' w Ht Hq Hf). cbn [fst].
      intros H. f_equal. apply (json_response_inj 400 "error"). congruence.
    + rewrite (ask_accepted upstream d text question w Ht Hq Hf).
      destruct (model_output _);
        [|rewrite ask_except_run; destruct (utf8_encode_error _)];
        cbn [fst]; intros H;
        apply (f_equal (fun r => match r with Ok x => status x | Raise _ => 0 end)) in H;
        discriminate H.
  - intros Hf. now rewrite (ask_rejected upstream d text question msg w Ht Hq Hf).
Qed.

Lemma spec_first_failure_len (text question text' question' : str) :
  len text = len text' -> len question = len question' ->
  spec_first_failure text question = spec_first_failure text' question'.
Proof.
  intros H1 H2. unfold spec_first_failure. rewrite !spec_checks_len.
  now rewrite H1, H2.
Qed.

(** A string strips to nothing exactly when it is made of whitespace. *)
Lemma lstrip_nil_iff (s : str) : lstrip s = [] <-> forallb isspace s = true.
Proof.
  split; [|apply lstrip_all_spaces].
  induction s as [|c s IH]; simpl; [reflexivity|].
  destruct (isspace c); [exact IH | discriminate].
Qed.

Lemma lstrip_keeps_blankness (s : str) :
  forallb isspace (lstrip s) = forallb isspace s.
Proof.
  induction s as [|c s IH]; simpl; [reflexivity|].
  destruct (isspace c) eqn:Hc; simpl; [exact IH | now rewrite Hc].
Qed.

Lemma strip_nil_iff (s : str) : strip s = [] <-> forallb isspace s = true.
Proof.
  unfold strip, rstrip.
  rewrite <- (lstrip_keeps_blankness s), <- (forallb_reverse isspace (lstrip s)),
    <- lstrip_nil_iff.
  split; intros H.
  - apply (f_equal reverse) in H. now rewrite reverse_involutive in H.
  - now rewrite H.
Qed.

(** ** More on stripping *)

Lemma lstrip_decompose (s : str) :
  exists ws : str, s = ws ++ lstrip s /\ forallb isspace ws = true.
Proof.
  induction s as [|c s (ws & Hs & Hws)]; [now exists []|].
  simpl. destruct (isspace c) eqn:Hc.
  - exists (c :: ws). simpl. rewrite Hc, Hws. split; [now f_equal | reflexivity].
  - now exists [].
Qed.

Lemma rstrip_decompose (s : str) :
  exists ws : str, s = rstrip s ++ ws /\ forallb isspace ws = true.
Proof.
  destruct (lstrip_decompose (reverse s)) as (ws & Hs & Hws).
  exists (reverse ws). split; [|now rewrite forallb_reverse].
  unfold rstrip. rewrite <- reverse_app, <- Hs. now rewrite reverse_involutive.
Qed.

Lemma strip_decompose (s : str) :
  exists ws1 ws2 : str,
    s = ws1 ++ strip s ++ ws2 /\
    forallb isspace ws1 = true /\ forallb isspace ws2 = true.
Proof.
  destruct (lstrip_decompose s) as (ws1 & Hs & Hws1).
  destruct (rstrip_decompose (lstrip s)) as (ws2 & Hr & Hws2).
  exists ws1, ws2. unfold strip. now rewrite <- Hr.
Qed.

Lemma strip_len_le (s : str) : len (strip s) <= len s.
Proof.
  destruct (strip_decompose s) as (ws1 & ws2 & Hs & _).
  unfold len. rewrite Hs at 2. rewrite !length_app. lia.
Qed.

Lemma lstrip_head (s : str) (c : N) :
  head (lstrip s) = Some c -> isspace c = false.
Proof.
  induction s as [|b s IH]; simpl; [discriminate|].
  destruct (isspace b) eqn:Hb; [exact IH|]. simpl. now intros [= <-].
Qed.

Lemma rstrip_last (s : str) (c : N) :
  last (rstrip s) = Some c -> isspace c = false.
Proof. unfold rstrip. rewrite last_reverse. apply lstrip_head. Qed.

Lemma rstrip_head (s : str) (c : N) :
  head (rstrip s) = Some c -> head s = Some c.
Proof.
  destruct (rstrip_decompose s) as (ws & Hs & _). intros H.
  rewrite Hs, head_app. now rewrite H.
Qed.

Lemma strip_no_outer_space (s : str) : no_outer_space (strip s) = true.
Proof.
  unfold no_outer_space. apply andb_true_intro. split.
  - destruct (head (strip s)) as [c|] eqn:Hh; [|reflexivity].
    unfold strip in Hh. apply rstrip_head, lstrip_head in Hh. now rewrite Hh.
  - destruct (last (strip s)) as [c|] eqn:Hl; [|reflexivity].
    unfold strip in Hl. apply rstrip_last in Hl. now rewrite Hl.
Qed.

Lemma lstrip_fixed (s : str) :
  match head s with Some c => negb (isspace c) | None => true end = true ->
  lstrip s = s.
Proof.
  destruct s as [|c s]; [reflexivity|]. simpl.
  now destruct (isspace c).
Qed.

Lemma strip_fixed (s : str) : no_outer_space s = true -> strip s = s.
Proof.
  unfold no_outer_space. intros [Hh Hl]%andb_prop. unfold strip.
  rewrite (lstrip_fixed s Hh). unfold rstrip.
  rewrite lstrip_fixed; [apply reverse_involutive|].
  now rewrite head_reverse.
Qed.

Lemma strip_idempotent (s : str) : strip (strip s) = strip s.
Proof. apply strip_fixed, strip_no_outer_space. Qed.

Lemma lit_app (a b : string) : lit (a +:+ b) = lit a ++ lit b.
Proof.
  unfold lit. induction a as [|c a IH]; [reflexivity|].
  change (N_of_ascii c :: (N_of_ascii <$> list_ascii_of_string (a +:+ b)) =
          N_of_ascii c :: ((N_of_ascii <$> list_ascii_of_string a) ++
                           (N_of_ascii <$> list_ascii_of_string b))).
  now rewrite IH.
Qed.

(** ** The cases of the test suite *)

Example strip_pads : strip (lit "  What is this?  ") = lit "What is this?".
Proof. vm_compute. reflexivity. Qed.

Example strip_keeps_inner_space :
  strip ([9; 160; 8195]%N ++ lit "a b" ++ [10; 12288]%N) = lit "a b".
Proof. vm_compute. reflexivity. Qed.

Example zero_width_space_is_kept : strip [8203%N] = [8203%N].
Proof. vm_compute. reflexivity. Qed.

Example test_ask_with_valid_inputs :
  fst (ask (upstream_answers (lit "This is a mocked answer."))
         (post (PStr lecture) (PStr what_is_ml)) w0) =
  Ok (json_response 200 "answer" (lit "This is a mocked answer.")).
Proof. vm_compute. reflexivity. Qed.

Example test_ask_without_text :
  ask (upstream_answers lecture) (post (PStr []) (PStr (lit "What is this?"))) w0 =
  (Ok (json_response 400 "error" (lit "Please provide lecture text.")), w0).
Proof. vm_compute. reflexivity. Qed.

Example test_ask_with_question_too_short :
  ask (upstream_answers lecture)
    (post (PStr (lit "This is a valid lecture with enough content.")) (PStr (lit "OK"))) w0 =
  (Ok (json_response 400 "error" (lit "Question is too short. Please be more specific.")), w0).
Proof. vm_compute. reflexivity. Qed.

Example test_ask_with_text_too_long :
  ask (upstream_answers lecture)
    (post (PStr (chars 97 (TEXT_MAX_LENGTH + 1))) (PStr (lit "What is this?"))) w0 =
  (Ok (json_response 400 "error"
         (lit "Lecture text exceeds maximum length (5000 characters). Please shorten it.")),
   w0).
Proof. vm_compute. reflexivity. Qed.

Example test_ask_with_null_inputs :
  ask (upstream_answers lecture) (post PNone PNone) w0 =
  (Ok (json_response 400 "error" msg_no_text), w0).
Proof. vm_compute. reflexivity. Qed.

Example test_ask_with_unicode_characters :
  fst (ask (upstream_answers (lit "This is a mocked answer."))
         (post (PStr (lit "This is content with " ++ [233; 109; 111; 106; 105; 115; 32; 127891]%N))
               (PStr (lit "What about Unicode? " ++ [128218%N]))) w0) =
  Ok (json_response 200 "answer" (lit "This is a mocked answer.")).
Proof. vm_compute. reflexivity. Qed.

Example test_ask_with_api_error :
  ask (upstream_raises (lit "API Error"))
    (post (PStr (lit "Valid lecture content for testing.")) (PStr (lit "What is this?"))) w0 =
  (Ok (json_response 500 "error" msg_generic),
   {| api_calls :=
        [spec_call (build_prompt (lit "Valid lecture content for testing.")
                      (lit "What is this?"))];
      stdout := [lit "Error in /ask endpoint: API Error: API Error"] |}) /\
  contains msg_generic (lit "API Error") = false.
Proof. vm_compute. split; reflexivity. Qed.

Example falsy_values_are_empty_text :
  ask (upstream_answers lecture) (post (PInt 0) (PList [])) w0 =
  (Ok (json_response 400 "error" msg_no_text), w0).
Proof. vm_compute. reflexivity. Qed.

Example body_is_a_list :
  ask (upstream_answers lecture) (JsonBody (PList [PStr lecture])) w0 =
  (Ok (json_response 500 "error" msg_generic),
   printed w0 (lit "Error in /ask endpoint: 'list' object has no attribute 'get'")).
Proof. vm_compute. reflexivity. Qed.

(** ** The claims *)

(** C1: for a JSON object body whose two fields normalise to [text] and
    [question], the six checks are applied in the order of the table:
    when the first failing check of the table has message [msg], the
    handler answers 400 with exactly that message and leaves the world
    as it was (no call of the adapter, nothing printed); the six messages
    are pairwise distinct. *)
Theorem C1_first_failing_check
    (upstream : list chat_request -> chat_request -> outcome)
    (d : gmap str pyval) (text question msg : str) (w : world) :
  field (PDict d) "text" w = (Ok text, w) ->
  field (PDict d) "question" w = (Ok question, w) ->
  spec_first_failure text question = Some msg ->
  ask upstream (JsonBody (PDict d)) w = (Ok (json_response 400 "error" msg), w) /\
  NoDup (snd <$> spec_checks text question).
Proof.
  intros Ht Hq Hf. split; [now apply (ask_rejected upstream d text question)|].
  rewrite spec_checks_len. simpl.
  apply (bool_decide_unpack _). vm_compute. exact I.
Qed.

Lemma C1_first_failing_check_witness :
  ask (upstream_answers lecture) (post (PStr (lit "  Short ")) (PStr (lit "OK"))) w0 =
    (Ok (json_response 400 "error" msg_text_short), w0) /\
  NoDup (snd <$> spec_checks (lit "Short") (lit "OK")).
Proof.
  exact (C1_first_failing_check (upstream_answers lecture)
           (json_body (PStr (lit "  Short ")) (PStr (lit "OK")))
           (lit "Short") (lit "OK") msg_text_short w0
           ltac:(vm_compute; reflexivity) ltac:(vm_compute; reflexivity)
           ltac:(vm_compute; reflexivity)).
Defined.

(** C2: the bounds are inclusive.  With a trimmed text of exactly 5000
    characters and a trimmed question of exactly 300, no check of the
    table fails, the adapter is called and a text from the remote service
    gives a 200 answer.  With a trimmed text of 5001 characters the
    answer is 400, and when the trimmed question has at least 3
    characters its message is the text-too-long one, which contains
    5000.  With a trimmed question of 301 characters the answer is 400,
    and when the trimmed text has 20 to 5000 characters its message is
    the question-too-long one, which contains 300. *)
Theorem C2_bounds_inclusive
    (upstream : list chat_request -> chat_request -> outcome)
    (d : gmap str pyval) (text question : str) (w : world) :
  field (PDict d) "text" w = (Ok text, w) ->
  field (PDict d) "question" w = (Ok question, w) ->
  (len text = 5000 -> len question = 300 ->
     Forall (fun c => fst c = false) (spec_checks text question) /\
     api_calls (snd (ask upstream (JsonBody (PDict d)) w)) =
       api_calls w ++ [spec_call (build_prompt text question)] /\
     forall s,
       model_output (upstream (api_calls w) (spec_call (build_prompt text question))) = Some s ->
       fst (ask upstream (JsonBody (PDict d)) w) = Ok (json_response 200 "answer" (strip s))) /\
  (len text = 5001 ->
     exists msg : str,
       ask upstream (JsonBody (PDict d)) w = (Ok (json_response 400 "error" msg), w) /\
       (3 <= len question ->
        msg = msg_text_long /\ contains msg (str_of_int 5000) = true)) /\
  (len question = 301 ->
     exists msg : str,
       ask upstream (JsonBody (PDict d)) w = (Ok (json_response 400 "error" msg), w) /\
       (20 <= len text <= 5000 ->
        msg = msg_question_long /\ contains msg (str_of_int 300) = true)).
Proof.
  intros Ht Hq. split; [|split].
  - intros H5000 H300.
    assert (Hf : spec_first_failure text question = None)
      by (apply spec_first_failure_None; lia).
    rewrite (ask_accepted upstream d text question w Ht Hq Hf).
    split; [|split].
    + rewrite spec_checks_len, H5000, H300. repeat constructor.
    + destruct (model_output _); [reflexivity | now rewrite ask_except_calls].
    + intros s Hs. now rewrite Hs.
  - intros H5001.
    destruct (spec_first_failure text question) as [msg|] eqn:Hf;
      [|apply spec_first_failure_None in Hf; lia].
    exists msg. split; [exact (ask_rejected upstream d text question msg w Ht Hq Hf)|].
    intros Hq3.
    assert (Hlong : spec_first_failure text question = Some msg_text_long)
      by decide_checks.
    assert (msg = msg_text_long) as -> by congruence.
    split; [reflexivity | vm_compute; reflexivity].
  - intros H301.
    destruct (spec_first_failure text question) as [msg|] eqn:Hf;
      [|apply spec_first_failure_None in Hf; lia].
    exists msg. split; [exact (ask_rejected upstream d text question msg w Ht Hq Hf)|].
    intros Ht20.
    assert (Hlong : spec_first_failure text question = Some msg_question_long)
      by decide_checks.
    assert (msg = msg_question_long) as -> by congruence.
    split; [reflexivity | vm_compute; reflexivity].
Qed.

Lemma C2_bounds_inclusive_witness :
  (Forall (fun c => fst c = false)
     (spec_checks (chars 120 5000) (chars 121 300)) /\
   api_calls (snd (ask (upstream_answers lecture)
                     (post (PStr (chars 120 5000)) (PStr (chars 121 300))) w0)) =
     [spec_call (build_prompt (chars 120 5000) (chars 121 300))] /\
   fst (ask (upstream_answers lecture)
          (post (PStr (chars 120 5000)) (PStr (chars 121 300))) w0) =
     Ok (json_response 200 "answer" (strip lecture))) /\
  ask (upstream_answers lecture) (post (PStr (chars 97 5001)) (PStr what_is_ml)) w0 =
    (Ok (json_response 400 "error" msg_text_long), w0) /\
  ask (upstream_answers lecture) (post (PStr lecture) (PStr (chars 113 301))) w0 =
    (Ok (json_response 400 "error" msg_question_long), w0).
Proof.
  split; [|split].
  - destruct (C2_bounds_inclusive (upstream_answers lecture)
                (json_body (PStr (chars 120 5000)) (PStr (chars 121 300)))
                (chars 120 5000) (chars 121 300) w0
                ltac:(vm_compute; reflexivity) ltac:(vm_compute; reflexivity))
      as [H _].
    destruct H as [H1 [H2 H3]]; [vm_compute; reflexivity ..|].
    split; [exact H1|]. split; [exact H2|]. apply H3. reflexivity.
  - destruct (C2_bounds_inclusive (upstream_answers lecture)
                (json_body (PStr (chars 97 5001)) (PStr what_is_ml))
                (chars 97 5001) what_is_ml w0
                ltac:(vm_compute; reflexivity) ltac:(vm_compute; reflexivity))
      as [_ [H _]].
    destruct H as (msg & Hask & Hmsg); [vm_compute; reflexivity|].
    destruct Hmsg as [-> _]; [vm_compute; discriminate|]. exact Hask.
  - destruct (C2_bounds_inclusive (upstream_answers lecture)
                (json_body (PStr lecture) (PStr (chars 113 301)))
                lecture (chars 113 301) w0
                ltac:(vm_compute; reflexivity) ltac:(vm_compute; reflexivity))
      as [_ [_ H]].
    destruct H as (msg & Hask & Hmsg); [vm_compute; reflexivity|].
    destruct Hmsg as [-> _]; [vm_compute; split; discriminate|]. exact Hask.
Defined.

(** The text-too-long message needs a question that passes its own
    checks: a trimmed text of 5001 characters sent with an empty question
    is answered 400 with the question-missing message, which does not
    contain 5000. *)
Lemma C2_counterexample :
  len (strip (chars 97 5001)) = 5001 /\
  ask (upstream_answers lecture) (post (PStr (chars 97 5001)) (PStr [])) w0 =
    (Ok (json_response 400 "error" msg_no_question), w0) /\
  contains msg_no_question (str_of_int 5000) = false.
Proof. vm_compute. repeat split; reflexivity. Qed.

(** When a request has passed the checks and the remote call yields no
    text (it raises, returns no choice, or a choice without content),
    and standard output can encode the text of the failure, the handler
    answers 500 with exactly the generic body, after one call and one
    printed line that carries the detail. *)
Lemma generic_failure_if_printable
    (upstream : list chat_request -> chat_request -> outcome)
    (d : gmap str pyval) (text question : str) (w : world) :
  field (PDict d) "text" w = (Ok text, w) ->
  field (PDict d) "question" w = (Ok question, w) ->
  spec_first_failure text question = None ->
  model_output (upstream (api_calls w) (spec_call (build_prompt text question))) = None ->
  let detail :=
    exn_str (upstream_error (upstream (api_calls w) (spec_call (build_prompt text question)))) in
  printable detail = true ->
  ask upstream (JsonBody (PDict d)) w =
    (Ok {| status := 500; body := PDict {[ lit "error" := PStr msg_generic ]} |},
     printed (sent w (spec_call (build_prompt text question)))
       (lit "Error in /ask endpoint: " ++ lit "API Error: " ++ detail)).
Proof.
  intros Ht Hq Hf Ho detail Hp.
  rewrite (ask_accepted upstream d text question w Ht Hq Hf), Ho, ask_except_run.
  rewrite log_line_printable; [reflexivity|].
  apply printable_app. split; [apply printable_lit | exact Hp].
Qed.


(** The handler works on the normal forms of the specification. *)
Lemma spec_normalise_field (d : gmap str pyval) (k : string) (s : str) (w : world) :
  spec_normalise (d !! lit k) = Some s -> field (PDict d) k w = (Ok s, w).
Proof.
  destruct (d !! lit k) as [v|] eqn:Hv.
  - destruct v; try discriminate; intros [= <-];
      [now apply field_null | now apply field_str].
  - intros [= <-]. now apply field_absent.
Qed.

Lemma spec_normalise_stripped (v : option pyval) (s : str) :
  spec_normalise v = Some s -> strip s = s.
Proof.
  destruct v as [[]|]; try discriminate; intros [= <-];
    [reflexivity | apply strip_idempotent | reflexivity].
Qed.

Lemma json_body_text (text question : pyval) :
  json_body text question !! lit "text" = Some text.
Proof. apply lookup_insert_eq. Qed.

Lemma json_body_question (text question : pyval) :
  json_body text question !! lit "question" = Some question.
Proof.
  unfold json_body. rewrite lookup_insert_ne by exact key_text_question.
  apply lookup_singleton_eq.
Qed.

(** C4: for a JSON object body whose two fields are absent, null or
    strings, let [text] and [question] be their normal forms: the empty
    string for an absent or null field, the string without the
    whitespace around it otherwise.  (1) These are the two values the
    handler computes before any check.  (2) The checks are run on them:
    the handler answers 400 with [msg] exactly when [msg] is the first
    failure of the table for [text] and [question].  (3) The lengths
    checked are numbers of characters (code points, not bytes) of the
    normal forms: with 20 to 5000 characters of text and 3 to 300 of
    question no check fails and the adapter is called with the prompt
    built from the normal forms, and otherwise the answer is a 400.
    (4) The handler does exactly what it does for the body that holds
    the two normal forms themselves; so (5) an absent or null field
    behaves as the empty string and (6) whitespace around a string field
    behaves as if it had not been sent.  (7) Two bodies whose normal
    forms have the same numbers of characters get the same 400
    answers. *)
Theorem C4_normalisation
    (upstream : list chat_request -> chat_request -> outcome)
    (d : gmap str pyval) (text question : str) (w : world) :
  spec_normalise (d !! lit "text") = Some text ->
  spec_normalise (d !! lit "question") = Some question ->
  (field (PDict d) "text" w = (Ok text, w) /\
   field (PDict d) "question" w = (Ok question, w)) /\
  (forall msg : str,
     fst (ask upstream (JsonBody (PDict d)) w) = Ok (json_response 400 "error" msg) <->
     spec_first_failure text question = Some msg) /\
  ((20 <= Z.of_nat (length text) <= 5000 /\ 3 <= Z.of_nat (length question) <= 300 ->
    spec_first_failure text question = None /\
    api_calls (snd (ask upstream (JsonBody (PDict d)) w)) =
      api_calls w ++ [spec_call (build_prompt text question)]) /\
   (~ (20 <= Z.of_nat (length text) <= 5000 /\ 3 <= Z.of_nat (length question) <= 300) ->
    exists msg : str,
      ask upstream (JsonBody (PDict d)) w = (Ok (json_response 400 "error" msg), w))) /\
  ask upstream (JsonBody (PDict d)) w =
    ask upstream (post (PStr text) (PStr question)) w /\
  (forall k : string,
     k = "text" \/ k = "question" ->
     d !! lit k = None \/ d !! lit k = Some PNone ->
     field (PDict d) k w = (Ok [], w) /\
     ask upstream (JsonBody (PDict d)) w =
     ask upstream (JsonBody (PDict (<[lit k := PStr []]> d))) w) /\
  (forall (k : string) (ws1 s ws2 : str),
     k = "text" \/ k = "question" ->
     d !! lit k = Some (PStr (ws1 ++ s ++ ws2)) ->
     forallb isspace ws1 = true -> forallb isspace ws2 = true ->
     field (PDict d) k w = (Ok (strip s), w) /\
     ask upstream (JsonBody (PDict d)) w =
     ask upstream (JsonBody (PDict (<[lit k := PStr s]> d))) w) /\
  (forall (d' : gmap str pyval) (text' question' : str),
     spec_normalise (d' !! lit "text") = Some text' ->
     spec_normalise (d' !! lit "question") = Some question' ->
     length text = length text' -> length question = length question' ->
     forall msg : str,
       fst (ask upstream (JsonBody (PDict d)) w) = Ok (json_response 400 "error" msg) <->
       fst (ask upstream (JsonBody (PDict d')) w) = Ok (json_response 400 "error" msg)).
Proof.
  intros Hnt Hnq.
  assert (Ht : forall w1, field (PDict d) "text" w1 = (Ok text, w1))
    by (intros w1; now apply spec_normalise_field).
  assert (Hq : forall w1, field (PDict d) "question" w1 = (Ok question, w1))
    by (intros w1; now apply spec_normalise_field).
  split; [split; [apply Ht | apply Hq]|].
  split; [intros msg; apply (ask_rejects_iff upstream d text question msg w (Ht w) (Hq w))|].
  split; [split|].
  - intros Hin.
    assert (Hf : spec_first_failure text question = None)
      by (apply spec_first_failure_None; exact Hin).
    split; [exact Hf|].
    rewrite (ask_accepted upstream d text question w (Ht w) (Hq w) Hf).
    destruct (model_output _); [reflexivity | now rewrite ask_except_calls].
  - intros Hout.
    destruct (spec_first_failure text question) as [msg|] eqn:Hf.
    + exists msg. exact (ask_rejected upstream d text question msg w (Ht w) (Hq w) Hf).
    + apply spec_first_failure_None in Hf. now destruct Hout.
  - split; [|split; [|split]].
    + apply ask_ext; intros w1.
      * rewrite Ht, (field_str _ "text" text w1 (json_body_text _ _)).
        now rewrite (spec_normalise_stripped _ _ Hnt).
      * rewrite Hq, (field_str _ "question" question w1 (json_body_question _ _)).
        now rewrite (spec_normalise_stripped _ _ Hnq).
    + intros k Hk Hnull.
      assert (Hf : forall w1, field (PDict d) k w1 = (Ok (strip []), w1)).
      { intros w1. destruct Hnull as [H|H]; [now apply field_absent | now apply field_null]. }
      split; [apply Hf | now apply ask_replace_field].
    + intros k ws1 s ws2 Hk Hs H1 H2.
      assert (Hf : forall w1, field (PDict d) k w1 = (Ok (strip s), w1)).
      { intros w1. rewrite (field_str d k _ w1 Hs). now rewrite strip_padding. }
      split; [apply Hf | now apply ask_replace_field].
    + intros d' text' question' Hnt' Hnq' Hlt Hlq msg.
      rewrite (ask_rejects_iff upstream d text question msg w (Ht w) (Hq w)).
      rewrite (ask_rejects_iff upstream d' text' question' msg w
                 (spec_normalise_field d' "text" text' w Hnt')
                 (spec_normalise_field d' "question" question' w Hnq')).
      rewrite (spec_first_failure_len text question text' question');
        [reflexivity | unfold len; now rewrite Hlt | unfold len; now rewrite Hlq].
Qed.

(** A text of 5000 two-byte characters, sent with whitespace around it
    and around the question, is accepted and reaches the adapter without
    that whitespace; a null text is answered as a missing one. *)
Lemma C4_normalisation_witness :
  utf8_len (chars 233 5000) = 10000 /\
  (field (PDict (json_body (PStr ([32; 9]%N ++ chars 233 5000 ++ [10%N]))
                   (PStr (lit "  Why?  ")))) "text" w0 =
     (Ok (chars 233 5000), w0) /\
   api_calls (snd (ask (upstream_answers lecture)
                     (post (PStr ([32; 9]%N ++ chars 233 5000 ++ [10%N]))
                           (PStr (lit "  Why?  "))) w0)) =
     [spec_call (build_prompt (chars 233 5000) (lit "Why?"))]) /\
  fst (ask (upstream_answers lecture) (post PNone (PStr what_is_ml)) w0) =
    Ok (json_response 400 "error" msg_no_text).
Proof.
  split; [vm_compute; reflexivity|]. split.
  - destruct (C4_normalisation (upstream_answers lecture)
                (json_body (PStr ([32; 9]%N ++ chars 233 5000 ++ [10%N]))
                   (PStr (lit "  Why?  ")))
                (chars 233 5000) (lit "Why?") w0
                ltac:(vm_compute; reflexivity) ltac:(vm_compute; reflexivity))
      as [[Hfield _] [_ [[Hin _] _]]].
    split; [exact Hfield|].
    apply Hin. vm_compute. split; split; discriminate.
  - destruct (C4_normalisation (upstream_answers lecture)
                (json_body PNone (PStr what_is_ml)) [] what_is_ml w0
                ltac:(vm_compute; reflexivity) ltac:(vm_compute; reflexivity))
      as [_ [Hmsg _]].
    apply Hmsg. vm_compute. reflexivity.
Defined.

(** C5: for a request whose trimmed text has 20 to 5000
    characters and whose trimmed question has 3 to 300, when the remote
    call yields the text [s] the handler answers 200 with the body
    [{answer: strip s}], after exactly one call; the answer is non-empty
    exactly when [s] has a character that is not whitespace. *)
Theorem C5_success
    (upstream : list chat_request -> chat_request -> outcome)
    (d : gmap str pyval) (text question s : str) (w : world) :
  field (PDict d) "text" w = (Ok text, w) ->
  field (PDict d) "question" w = (Ok question, w) ->
  20 <= len text <= 5000 ->
  3 <= len question <= 300 ->
  model_output (upstream (api_calls w) (spec_call (build_prompt text question))) = Some s ->
  ask upstream (JsonBody (PDict d)) w =
    (Ok {| status := 200; body := PDict {[ lit "answer" := PStr (strip s) ]} |},
     sent w (spec_call (build_prompt text question))) /\
  (strip s <> [] <-> forallb isspace s = false).
Proof.
  intros Ht Hq Hlt Hlq Ho. split.
  - rewrite (ask_accepted upstream d text question w Ht Hq)
      by (apply spec_first_failure_None; split; assumption).
    now rewrite Ho.
  - rewrite strip_nil_iff. now destruct (forallb isspace s).
Qed.

Lemma C5_success_witness :
  ask (upstream_answers (lit " This is a mocked answer. "))
      (post (PStr lecture) (PStr what_is_ml)) w0 =
    (Ok (json_response 200 "answer" (lit "This is a mocked answer.")),
     sent w0 (spec_call (build_prompt lecture what_is_ml))).
Proof.
  destruct (C5_success (upstream_answers (lit " This is a mocked answer. "))
              (json_body (PStr lecture) (PStr what_is_ml))
              lecture what_is_ml (lit " This is a mocked answer. ") w0
              ltac:(vm_compute; reflexivity) ltac:(vm_compute; reflexivity)
              ltac:(vm_compute; split; discriminate)
              ltac:(vm_compute; split; discriminate)
              ltac:(vm_compute; reflexivity))
    as [H _].
  exact H.
Defined.

(** The answer can be empty: a request within the bounds whose remote
    call succeeds with a text made of spaces is answered 200 with an
    empty answer. *)
Lemma C5_counterexample :
  20 <= len (strip lecture) <= 5000 /\
  3 <= len (strip what_is_ml) <= 300 /\
  model_output (upstream_answers (lit "   ") [] (spec_call (build_prompt lecture what_is_ml))) =
    Some (lit "   ") /\
  ask (upstream_answers (lit "   ")) (post (PStr lecture) (PStr what_is_ml)) w0 =
    (Ok (json_response 200 "answer" []),
     sent w0 (spec_call (build_prompt lecture what_is_ml))).
Proof. vm_compute. repeat split; discriminate. Qed.

(** C6: for a request that passes all the checks, the one outbound call
    is built from the two trimmed fields alone, whatever the remote
    service does: model [gpt-4o-mini], the constant system instruction,
    the user prompt made of the fixed template around the trimmed text
    and the trimmed question, a budget of 300 output tokens and
    temperature 0.2. *)
Theorem C6_outbound_call
    (upstream : list chat_request -> chat_request -> outcome)
    (d : gmap str pyval) (text question : str) (w : world) :
  field (PDict d) "text" w = (Ok text, w) ->
  field (PDict d) "question" w = (Ok question, w) ->
  spec_first_failure text question = None ->
  api_calls (snd (ask upstream (JsonBody (PDict d)) w)) =
  api_calls w ++
  [ {| model := lit "gpt-4o-mini";
       messages :=
         [ {| role := lit "system"; content := SYSTEM_PROMPT |};
           {| role := lit "user";
              content :=
                lit "Based on the following course material, please answer the question." ++
                [10%N; 10%N] ++ lit "Course Material:" ++ [10%N] ++ text ++
                [10%N; 10%N] ++ lit "Question: " ++ question ++
                [10%N; 10%N] ++ lit "Provide a clear and concise answer." |} ];
       max_tokens := 300;
       temperature := 0.2 |} ].
Proof.
  intros Ht Hq Hf.
  rewrite (ask_accepted upstream d text question w Ht Hq Hf).
  transitivity (api_calls w ++ [spec_call (build_prompt text question)]);
    [|reflexivity].
  destruct (model_output _); [reflexivity | now rewrite ask_except_calls].
Qed.

Lemma C6_outbound_call_witness :
  api_calls (snd (ask (upstream_raises (lit "rate limit"))
                    (post (PStr (lit "  Photosynthesis turns light into sugar.  "))
                          (PStr (lit " Why? "))) w0)) =
  [ {| model := lit "gpt-4o-mini";
       messages :=
         [ {| role := lit "system"; content := SYSTEM_PROMPT |};
           {| role := lit "user";
              content :=
                lit "Based on the following course material, please answer the question." ++
                [10%N; 10%N] ++ lit "Course Material:" ++ [10%N] ++
                lit "Photosynthesis turns light into sugar." ++
                [10%N; 10%N] ++ lit "Question: " ++ lit "Why?" ++
                [10%N; 10%N] ++ lit "Provide a clear and concise answer." |} ];
       max_tokens := 300;
       temperature := 0.2 |} ].
Proof.
  exact (C6_outbound_call (upstream_raises (lit "rate limit"))
           (json_body (PStr (lit "  Photosynthesis turns light into sugar.  "))
                      (PStr (lit " Why? ")))
           (lit "Photosynthesis turns light into sugar.") (lit "Why?") w0
           ltac:(vm_compute; reflexivity) ltac:(vm_compute; reflexivity)
           ltac:(vm_compute; reflexivity)).
Defined.

(** C7: for every request, remote service and starting world, the
    handler adds at most one call to those already made (it never
    retries), and when it answers 400 it adds none. *)
Theorem C7_at_most_one_call
    (upstream : list chat_request -> chat_request -> outcome)
    (r : request) (w : world) :
  exists calls : list chat_request,
    api_calls (snd (ask upstream r w)) = api_calls w ++ calls /\
    (length calls <= 1)%nat /\
    (forall resp : response,
       fst (ask upstream r w) = Ok resp -> status resp = 400 -> calls = []).
Proof.
  destruct (ask_shapes upstream r w) as [msg|line|req s|req line|e|req e].
  - exists []. cbn [fst snd]. rewrite app_nil_r. auto.
  - exists []. cbn [fst snd printed api_calls]. rewrite app_nil_r. auto.
  - exists [req]. cbn [fst snd sent api_calls]. repeat split; [auto|].
    intros resp [= <-]. discriminate.
  - exists [req]. cbn [fst snd sent printed api_calls]. repeat split; [auto|].
    intros resp [= <-]. discriminate.
  - exists []. cbn [fst snd]. rewrite app_nil_r. auto.
  - exists [req]. cbn [fst snd sent api_calls]. repeat split; [auto|].
    intros resp H. discriminate H.
Qed.

Lemma C7_at_most_one_call_witness :
  api_calls (snd (ask (upstream_answers lecture)
                    (post (PStr lecture) (PStr (lit "OK"))) w0)) = [].
Proof.
  destruct (C7_at_most_one_call (upstream_answers lecture)
              (post (PStr lecture) (PStr (lit "OK"))) w0)
    as (calls & Hcalls & _ & Hnone).
  rewrite Hcalls.
  rewrite (Hnone (json_response 400 "error" msg_question_short));
    vm_compute; reflexivity.
Defined.

(** C8: when [request.json] fails because the body is not JSON (the
    framework raises, or hands over [None]), the answer is the generic
    500, so its status is 400 or 500 and never 200; the adapter is not
    called. *)
Theorem C8_body_not_json
    (upstream : list chat_request -> chat_request -> outcome)
    (e : http_error) (w : world) :
  (ask upstream (NotJson e) w =
     (Ok (json_response 500 "error" msg_generic),
      printed w (lit "Error in /ask endpoint: " ++ exn_str e)) /\
   ask upstream (JsonBody PNone) w =
     (Ok (json_response 500 "error" msg_generic),
      printed w (lit "Error in /ask endpoint: 'NoneType' object has no attribute 'get'"))) /\
  exists resp : response,
    fst (ask upstream (NotJson e) w) = Ok resp /\
    (status resp = 400 \/ status resp = 500) /\ status resp <> 200.
Proof.
  assert (H : ask upstream (NotJson e) w =
     (Ok (json_response 500 "error" msg_generic),
      printed w (lit "Error in /ask endpoint: " ++ exn_str e))).
  { apply ask_raise; [reflexivity | apply printable_lit]. }
  split; [split; [exact H|]|].
  { now rewrite (ask_raise upstream (JsonBody PNone) w w (AttributeError PNone "get")
                   eq_refl (AttributeError_printable _ _)). }
  exists (json_response 500 "error" msg_generic). rewrite H.
  split; [reflexivity|]. split; [now right | discriminate].
Qed.

(** C9: [GET /health] answers 200 with the body [{status: ok}] in every
    world, makes no call and prints nothing; it takes no remote service
    and no configuration. *)
Theorem C9_health (w : world) :
  health w =
  (Ok {| status := 200; body := PDict {[ lit "status" := PStr (lit "ok") ]} |}, w).
Proof. reflexivity. Qed.

(** C10: for a JSON object body in which [text] or [question] is present
    with a truthy value that is not a string, the handler answers the
    generic 500, not a 400, without calling the adapter: stripping the
    value raises and the [except] clause answers. *)
Theorem C10_truthy_non_string
    (upstream : list chat_request -> chat_request -> outcome)
    (d : gmap str pyval) (k : string) (v : pyval) (w : world) :
  k = "text" \/ k = "question" ->
  d !! lit k = Some v ->
  truthy v = true ->
  (forall s : str, v <> PStr s) ->
  exists v' : pyval,
    ask upstream (JsonBody (PDict d)) w =
      (Ok {| status := 500; body := PDict {[ lit "error" := PStr msg_generic ]} |},
       printed w (lit "Error in /ask endpoint: " ++ exn_str (AttributeError v' "strip"))).
Proof.
  intros Hk Hv Ht Hs.
  pose proof (field_truthy_other d k v w Hv Ht Hs) as Hraise.
  destruct Hk as [-> | ->].
  - exists v. apply (ask_raise upstream _ w w); [|apply AttributeError_printable].
    now apply ask_try_bad_text.
  - destruct (field_result (PDict d) "text" w) as [[text Htext]|[e Htext]].
    + exists v. apply (ask_raise upstream _ w w); [|apply AttributeError_printable].
      now apply (ask_try_bad_question upstream _ text).
    + pose proof Htext as Htext'. rewrite field_dict in Htext'.
      destruct (py_or (default PNone (d !! lit "text")) (PStr [])) as [| | | | | |] eqn:Hor;
        try discriminate Htext'; injection Htext' as <-;
        eexists; (apply (ask_raise upstream _ w w); [|apply AttributeError_printable]);
        apply ask_try_bad_text; exact Htext.
Qed.

Lemma C10_truthy_non_string_witness :
  exists v' : pyval,
    ask (upstream_answers lecture) (post (PInt 42) (PStr what_is_ml)) w0 =
      (Ok (json_response 500 "error" msg_generic),
       printed w0 (lit "Error in /ask endpoint: " ++ exn_str (AttributeError v' "strip"))).
Proof.
  apply (C10_truthy_non_string (upstream_answers lecture)
           (json_body (PInt 42) (PStr what_is_ml)) "text" (PInt 42) w0
           (or_introl eq_refl)).
  - vm_compute. reflexivity.
  - reflexivity.
  - discriminate.
Defined.

(** ** Further properties of the handlers *)

Lemma status_json_response (code : Z) (key : string) (v : str) :
  status (json_response code key v) = code.
Proof. reflexivity. Qed.

Lemma ok_status_eq (a b : response) (w : world) :
  fst (Ok a, w) = Ok b -> status a = status b.
Proof. cbn [fst]. intros H. congruence. Qed.

(** X1: a run of the handler ends in one of two ways.  Either it
    returns a response, whose status is 200 with a body holding the
    single key [answer], or 400 or 500 with a body holding the single
    key [error].  Or the [try] block raised an exception whose line
    standard output cannot encode, and the [UnicodeEncodeError] of the
    [print] of the [except] clause leaves the handler, which returns no
    response. *)
Theorem ask_answer_or_error
    (upstream : list chat_request -> chat_request -> outcome)
    (r : request) (w : world) :
  match fst (ask upstream r w) with
  | Ok resp =>
      (status resp = 200 /\
       exists s : str, body resp = PDict {[ lit "answer" := PStr s ]}) \/
      ((status resp = 400 \/ status resp = 500) /\
       exists msg : str, body resp = PDict {[ lit "error" := PStr msg ]})
  | Raise e' =>
      exists (e : exn) (w' : world),
        handling_fails upstream w r e w' /\
        printable (exn_str e) = false /\
        utf8_encode_error (log_line e) = Some e'
  end.
Proof.
  destruct (ask_outcome_total upstream r w) as
    [d text question msg Ht Hq Hf|d text question s Ht Hq Hf Ho
     |r e w' Hfail Hp|r e e' w' Hfail Hp]; cbn [fst].
  - right. split; [left; reflexivity | exists msg; reflexivity].
  - left. split; [reflexivity | exists (strip s); reflexivity].
  - right. split; [right; reflexivity | exists msg_generic; reflexivity].
  - exists e, w'. split; [exact Hfail|]. split; [|exact Hp].
    destruct (printable (exn_str e)) eqn:Hpr; [|reflexivity].
    rewrite (log_line_printable e Hpr) in Hp. discriminate Hp.
Qed.

(** X2: when the handler returns a response with status 500 it has
    printed exactly one line, which starts with
    [Error in /ask endpoint: ]; when it returns a response with status
    200 or 400 it has printed nothing; when the exception of the [print]
    leaves it, nothing has been printed.  What was printed before is
    kept. *)
Theorem ask_prints_only_on_500
    (upstream : list chat_request -> chat_request -> outcome)
    (r : request) (w : world) :
  match fst (ask upstream r w) with
  | Ok resp =>
      (status resp = 500 /\
       exists e : exn,
         stdout (snd (ask upstream r w)) =
         stdout w ++ [lit "Error in /ask endpoint: " ++ exn_str e]) \/
      (status resp <> 500 /\ stdout (snd (ask upstream r w)) = stdout w)
  | Raise _ => stdout (snd (ask upstream r w)) = stdout w
  end.
Proof.
  destruct (ask_outcome_total upstream r w) as
    [d text question msg Ht Hq Hf|d text question s Ht Hq Hf Ho
     |r e w' Hfail Hp|r e e' w' Hfail Hp]; cbn [fst snd].
  - right. split; [discriminate | reflexivity].
  - right. split; [discriminate | reflexivity].
  - left. split; [reflexivity|]. exists e.
    destruct (handling_fails_world upstream r w w' e Hfail) as [Hout _].
    unfold printed, log_line. cbn [stdout]. now rewrite Hout.
  - now destruct (handling_fails_world upstream r w w' e Hfail) as [Hout _].
Qed.

(** X3: a 200 answer [a] is given exactly when the body is a JSON object
    whose two fields normalise to a text of 20 to 5000 characters and a
    question of 3 to 300, and the remote call made for their prompt
    yields a text whose stripped form is [a]. *)
Theorem ask_ok_iff
    (upstream : list chat_request -> chat_request -> outcome)
    (r : request) (w : world) (a : str) :
  fst (ask upstream r w) = Ok (json_response 200 "answer" a) <->
  exists (d : gmap str pyval) (text question s : str),
    r = JsonBody (PDict d) /\
    field (PDict d) "text" w = (Ok text, w) /\
    field (PDict d) "question" w = (Ok question, w) /\
    20 <= len text <= 5000 /\ 3 <= len question <= 300 /\
    model_output (upstream (api_calls w) (spec_call (build_prompt text question))) = Some s /\
    a = strip s.
Proof.
  split.
  - destruct (ask_outcome_total upstream r w) as
      [d text question msg Ht Hq Hf|d text question s Ht Hq Hf Ho
       |r e w' Hfail Hp|r e e' w' Hfail Hp];
      intros H; try (apply ok_status_eq in H; discriminate H);
      try (cbn [fst] in H; discriminate H).
    exists d, text, question, s.
    apply spec_first_failure_None in Hf. destruct Hf as [Hlt Hlq].
    repeat (split; [assumption || reflexivity|]).
    cbn [fst] in H. symmetry. apply (json_response_inj 200 "answer"). congruence.
  - intros (d & text & question & s & -> & Ht & Hq & Hlt & Hlq & Ho & ->).
    rewrite (ask_accepted upstream d text question w Ht Hq)
      by (apply spec_first_failure_None; split; assumption).
    now rewrite Ho.
Qed.

(** X4: a 400 answer is given exactly when the body is a JSON object
    whose two fields normalise and one of the two lengths is out of its
    range; anything else is answered 200 or 500. *)
Theorem ask_400_iff
    (upstream : list chat_request -> chat_request -> outcome)
    (r : request) (w : world) :
  (exists resp : response, fst (ask upstream r w) = Ok resp /\ status resp = 400) <->
  exists (d : gmap str pyval) (text question : str),
    r = JsonBody (PDict d) /\
    field (PDict d) "text" w = (Ok text, w) /\
    field (PDict d) "question" w = (Ok question, w) /\
    ~ (20 <= len text <= 5000 /\ 3 <= len question <= 300).
Proof.
  split.
  - destruct (ask_outcome_total upstream r w) as
      [d text question msg Ht Hq Hf|d text question s Ht Hq Hf Ho
       |r e w' Hfail Hp|r e e' w' Hfail Hp];
      intros (resp & H & Hst); try (cbn [fst] in H; discriminate H);
      apply ok_status_eq in H;
      rewrite Hst, status_json_response in H; try discriminate H.
    exists d, text, question. repeat (split; [assumption || reflexivity|]).
    intros Hin. apply spec_first_failure_None in Hin. congruence.
  - intros (d & text & question & -> & Ht & Hq & Hout).
    destruct (spec_first_failure text question) as [msg|] eqn:Hf.
    + exists (json_response 400 "error" msg).
      now rewrite (ask_rejected upstream d text question msg w Ht Hq Hf).
    + now apply spec_first_failure_None in Hf.
Qed.

(** X5: a field whose value is falsy without being a string ([false],
    [0], [0.0], an empty array or object) normalises to the empty string
    like a null one, and the handler answers exactly as for the empty
    string. *)
Theorem falsy_field_is_empty
    (upstream : list chat_request -> chat_request -> outcome)
    (d : gmap str pyval) (k : string) (v : pyval) (w : world) :
  k = "text" \/ k = "question" ->
  d !! lit k = Some v ->
  truthy v = false ->
  field (PDict d) k w = (Ok [], w) /\
  ask upstream (JsonBody (PDict d)) w =
  ask upstream (JsonBody (PDict (<[lit k := PStr []]> d))) w.
Proof.
  intros Hk Hv Hfalsy.
  assert (Hf : forall w1, field (PDict d) k w1 = (Ok (strip []), w1)).
  { intros w1. rewrite field_dict, Hv.
    change (py_strip (py_or v (PStr [])) w1 = (Ok (strip []), w1)).
    unfold py_or. now rewrite Hfalsy. }
  split; [apply Hf | now apply ask_replace_field].
Qed.

Lemma falsy_field_is_empty_witness :
  ask (upstream_answers lecture) (post (PInt 0) (PStr what_is_ml)) w0 =
  ask (upstream_answers lecture)
    (JsonBody (PDict (<[lit "text" := PStr []]> (json_body (PInt 0) (PStr what_is_ml))))) w0.
Proof.
  exact (proj2 (falsy_field_is_empty (upstream_answers lecture)
                  (json_body (PInt 0) (PStr what_is_ml)) "text" (PInt 0) w0
                  (or_introl eq_refl) ltac:(vm_compute; reflexivity) eq_refl)).
Defined.

(** X6: keys other than [text] and [question] are never read: adding,
    changing or removing one does not change what the handler does. *)
Theorem other_keys_ignored
    (upstream : list chat_request -> chat_request -> outcome)
    (d : gmap str pyval) (k : str) (v : pyval) (w : world) :
  k <> lit "text" -> k <> lit "question" ->
  ask upstream (JsonBody (PDict (<[k := v]> d))) w = ask upstream (JsonBody (PDict d)) w /\
  ask upstream (JsonBody (PDict (delete k d))) w = ask upstream (JsonBody (PDict d)) w.
Proof.
  intros Ht Hq. split; apply ask_ext; intros w1; rewrite !field_dict.
  - now rewrite lookup_insert_ne.
  - now rewrite lookup_insert_ne.
  - now rewrite lookup_delete_ne.
  - now rewrite lookup_delete_ne.
Qed.

Lemma other_keys_ignored_witness :
  ask (upstream_answers lecture)
    (JsonBody (PDict (<[lit "max_tokens" := PInt 100000]>
                        (json_body (PStr lecture) (PStr what_is_ml))))) w0 =
  ask (upstream_answers lecture) (post (PStr lecture) (PStr what_is_ml)) w0.
Proof.
  exact (proj1 (other_keys_ignored (upstream_answers lecture)
                  (json_body (PStr lecture) (PStr what_is_ml))
                  (lit "max_tokens") (PInt 100000) w0
                  ltac:(vm_compute; discriminate) ltac:(vm_compute; discriminate))).
Defined.

(** X7: a JSON body that is not an object (null, a boolean, a number, a
    string, an array) is answered with the generic 500; the adapter is
    not called and the printed line names the type of the body. *)
Theorem non_object_body
    (upstream : list chat_request -> chat_request -> outcome)
    (data : pyval) (w : world) :
  (forall d : gmap str pyval, data <> PDict d) ->
  ask upstream (JsonBody data) w =
  (Ok (json_response 500 "error" msg_generic),
   printed w (lit "Error in /ask endpoint: '" ++ lit (type_name data) ++
              lit "' object has no attribute 'get'")).
Proof.
  intros Hno.
  assert (Hline : log_line (AttributeError data "get") =
                  lit "Error in /ask endpoint: '" ++ lit (type_name data) ++
                  lit "' object has no attribute 'get'").
  { unfold log_line, AttributeError. cbn [exn_str]. rewrite !lit_app.
    reflexivity. }
  rewrite <- Hline.
  rewrite (ask_raise upstream (JsonBody data) w w (AttributeError data "get"));
    [reflexivity| |apply AttributeError_printable].
  destruct data; try reflexivity. now destruct (Hno d).
Qed.

Lemma non_object_body_witness :
  ask (upstream_answers lecture) (JsonBody (PList [PStr lecture; PStr what_is_ml])) w0 =
  (Ok (json_response 500 "error" msg_generic),
   printed w0 (lit "Error in /ask endpoint: 'list' object has no attribute 'get'")).
Proof.
  exact (non_object_body (upstream_answers lecture)
           (PList [PStr lecture; PStr what_is_ml]) w0
           ltac:(intros d; discriminate)).
Defined.

(** Which message the table gives, by the two character counts. *)
Lemma first_failure_table (text question : str) :
  (spec_first_failure text question = Some msg_no_text <-> len text = 0) /\
  (spec_first_failure text question = Some msg_no_question <->
     0 < len text /\ len question = 0) /\
  (spec_first_failure text question = Some msg_text_short <->
     0 < len text < 20 /\ 0 < len question) /\
  (spec_first_failure text question = Some msg_question_short <->
     20 <= len text /\ 0 < len question < 3) /\
  (spec_first_failure text question = Some msg_text_long <->
     5000 < len text /\ 3 <= len question) /\
  (spec_first_failure text question = Some msg_question_long <->
     20 <= len text <= 5000 /\ 300 < len question).
Proof.
  unfold spec_first_failure. rewrite spec_checks_len.
  assert (Hn : 0 <= len text) by apply Nat2Z.is_nonneg.
  assert (Hm : 0 <= len question) by apply Nat2Z.is_nonneg.
  revert Hn Hm. generalize (len text) (len question). intros n m Hn Hm.
  cbn [List.find fst snd fmap option_fmap option_map].
  rewrite !Z.gtb_ltb.
  destruct (Z.eqb_spec n 0); [|destruct (Z.eqb_spec m 0);
    [|destruct (Z.ltb_spec n 20); [|destruct (Z.ltb_spec m 3);
      [|destruct (Z.ltb_spec 5000 n); [|destruct (Z.ltb_spec 300 m)]]]]];
    cbn [List.find fst snd fmap option_fmap option_map];
    repeat split; intros; try lia; try reflexivity;
    match goal with
    | H : None = Some _ |- _ => discriminate H
    | H : Some _ = Some _ |- _ => exfalso; vm_compute in H; discriminate H
    end.
Qed.

(** X8: for normalised fields, each of the six messages is given exactly
    on its own region of the two character counts: text missing when the
    text is empty; question missing when only the question is empty;
    text too short for 1 to 19 characters with a question present;
    question too short for 1 or 2 characters with a text of at least 20;
    text too long above 5000 with a question of at least 3; question too
    long above 300 with a text of 20 to 5000. *)
Theorem rejection_reasons
    (upstream : list chat_request -> chat_request -> outcome)
    (d : gmap str pyval) (text question : str) (w : world) :
  field (PDict d) "text" w = (Ok text, w) ->
  field (PDict d) "question" w = (Ok question, w) ->
  let answers msg :=
    fst (ask upstream (JsonBody (PDict d)) w) = Ok (json_response 400 "error" msg) in
  (answers msg_no_text <-> len text = 0) /\
  (answers msg_no_question <-> 0 < len text /\ len question = 0) /\
  (answers msg_text_short <-> 0 < len text < 20 /\ 0 < len question) /\
  (answers msg_question_short <-> 20 <= len text /\ 0 < len question < 3) /\
  (answers msg_text_long <-> 5000 < len text /\ 3 <= len question) /\
  (answers msg_question_long <-> 20 <= len text <= 5000 /\ 300 < len question).
Proof.
  intros Ht Hq answers. unfold answers.
  rewrite !(ask_rejects_iff upstream d text question _ w Ht Hq).
  apply first_failure_table.
Qed.

Lemma rejection_reasons_witness :
  fst (ask (upstream_answers lecture) (post (PStr lecture) (PStr (lit " ?? "))) w0) =
    Ok (json_response 400 "error" msg_question_short) /\
  fst (ask (upstream_answers lecture) (post (PStr lecture) (PStr (lit " ?? "))) w0) <>
    Ok (json_response 400 "error" msg_text_short).
Proof.
  destruct (rejection_reasons (upstream_answers lecture)
              (json_body (PStr lecture) (PStr (lit " ?? "))) lecture (lit "??") w0
              ltac:(vm_compute; reflexivity) ltac:(vm_compute; reflexivity))
    as (_ & _ & Hshort & Hq & _).
  split.
  - apply Hq. vm_compute. repeat split; discriminate.
  - intros H. apply Hshort in H. vm_compute in H. destruct H as [[_ H] _]. discriminate H.
Defined.

(** X9: with both fields sent as strings, the untrimmed lengths already
    decide two things.  When the text as sent has fewer than 20
    characters or the question fewer than 3, the answer is 400 and the
    adapter is not called, whatever the padding.  A text of at most 5000
    characters as sent is never answered text-too-long, and a question
    of at most 300 never question-too-long. *)
Theorem raw_length_guarantees
    (upstream : list chat_request -> chat_request -> outcome)
    (d : gmap str pyval) (raw_text raw_question : str) (w : world) :
  d !! lit "text" = Some (PStr raw_text) ->
  d !! lit "question" = Some (PStr raw_question) ->
  (len raw_text < 20 \/ len raw_question < 3 ->
     exists msg : str,
       ask upstream (JsonBody (PDict d)) w = (Ok (json_response 400 "error" msg), w)) /\
  (len raw_text <= 5000 ->
     fst (ask upstream (JsonBody (PDict d)) w) <> Ok (json_response 400 "error" msg_text_long)) /\
  (len raw_question <= 300 ->
     fst (ask upstream (JsonBody (PDict d)) w) <>
     Ok (json_response 400 "error" msg_question_long)).
Proof.
  intros Ht Hq.
  pose proof (field_str d "text" raw_text w Ht) as Hft.
  pose proof (field_str d "question" raw_question w Hq) as Hfq.
  pose proof (strip_len_le raw_text) as Hlt.
  pose proof (strip_len_le raw_question) as Hlq.
  destruct (first_failure_table (strip raw_text) (strip raw_question))
    as (_ & _ & _ & _ & Htl & Hql).
  split; [|split].
  - intros Hshort.
    destruct (spec_first_failure (strip raw_text) (strip raw_question)) as [msg|] eqn:Hf.
    + exists msg. now apply (ask_rejected upstream d (strip raw_text) (strip raw_question)).
    + apply spec_first_failure_None in Hf. lia.
  - intros Hle H.
    apply (ask_rejects_iff upstream d _ _ _ w Hft Hfq), Htl in H. lia.
  - intros Hle H.
    apply (ask_rejects_iff upstream d _ _ _ w Hft Hfq), Hql in H. lia.
Qed.

Lemma raw_length_guarantees_witness :
  exists msg : str,
    ask (upstream_answers lecture)
      (post (PStr (lit "   nineteen chars  ")) (PStr what_is_ml)) w0 =
    (Ok (json_response 400 "error" msg), w0).
Proof.
  destruct (raw_length_guarantees (upstream_answers lecture)
              (json_body (PStr (lit "   nineteen chars  ")) (PStr what_is_ml))
              (lit "   nineteen chars  ") what_is_ml w0
              ltac:(vm_compute; reflexivity) ltac:(vm_compute; reflexivity))
    as (H & _ & _).
  apply H. left. vm_compute. reflexivity.
Defined.

(** What a 200 answer tells. *)
Lemma ask_200_inv (upstream : list chat_request -> chat_request -> outcome)
    (r : request) (w : world) (a : str) :
  fst (ask upstream r w) = Ok (json_response 200 "answer" a) ->
  exists (text question s : str),
    spec_first_failure text question = None /\
    model_output (upstream (api_calls w) (spec_call (build_prompt text question))) = Some s /\
    a = strip s /\
    snd (ask upstream r w) = sent w (spec_call (build_prompt text question)).
Proof.
  destruct (ask_outcome_total upstream r w) as
    [d text question msg Ht Hq Hf|d text question s Ht Hq Hf Ho
     |r e w' Hfail Hp|r e e' w' Hfail Hp];
    intros H; try (apply ok_status_eq in H; discriminate H);
    try (cbn [fst] in H; discriminate H).
  exists text, question, s. repeat (split; [assumption|]). split; [|reflexivity].
  cbn [fst] in H. symmetry. apply (json_response_inj 200 "answer"). congruence.
Qed.

(** X10: the answer of a 200 response is the text the remote call
    yielded with nothing but surrounding whitespace taken off: it
    neither starts nor ends with whitespace, stripping it again changes
    nothing, and the remote text is the answer between two runs of
    whitespace. *)
Theorem answer_is_trimmed_output
    (upstream : list chat_request -> chat_request -> outcome)
    (r : request) (w : world) (a : str) :
  fst (ask upstream r w) = Ok (json_response 200 "answer" a) ->
  no_outer_space a = true /\
  strip a = a /\
  exists (call : chat_request) (s ws1 ws2 : str),
    api_calls (snd (ask upstream r w)) = api_calls w ++ [call] /\
    model_output (upstream (api_calls w) call) = Some s /\
    s = ws1 ++ a ++ ws2 /\
    forallb isspace ws1 = true /\ forallb isspace ws2 = true.
Proof.
  intros H. destruct (ask_200_inv upstream r w a H) as (text & question & s & _ & Ho & -> & Hw).
  split; [apply strip_no_outer_space|]. split; [apply strip_idempotent|].
  destruct (strip_decompose s) as (ws1 & ws2 & Hs & H1 & H2).
  exists (spec_call (build_prompt text question)), s, ws1, ws2.
  rewrite Hw. auto.
Qed.

Lemma answer_is_trimmed_output_witness :
  no_outer_space (lit "Gradient descent.") = true /\
  strip (lit "Gradient descent.") = lit "Gradient descent.".
Proof.
  destruct (answer_is_trimmed_output
              (upstream_answers ([10; 9]%N ++ lit "Gradient descent." ++ [32; 10]%N))
              (post (PStr lecture) (PStr what_is_ml)) w0 (lit "Gradient descent.")
              ltac:(vm_compute; reflexivity))
    as (H1 & H2 & _).
  split; [exact H1 | exact H2].
Defined.

(** X11: the adapter validates nothing and always makes exactly one
    call, for any prompt and any token budget: the call carries the
    prompt as the user message and the budget as given, and nothing is
    printed.  It returns the stripped remote text, or raises an
    exception of class [Exception] whose text is [API Error: ] followed
    by the text of the original exception, whatever its class was. *)
Theorem ask_model_contract
    (upstream : list chat_request -> chat_request -> outcome)
    (prompt : str) (budget : Z) (w : world) :
  let call :=
    {| model := lit "gpt-4o-mini";
       messages := [ {| role := lit "system"; content := SYSTEM_PROMPT |};
                     {| role := lit "user"; content := prompt |} ];
       max_tokens := budget;
       temperature := 0.2 |} in
  snd (ask_model upstream prompt budget w) =
    {| api_calls := api_calls w ++ [call]; stdout := stdout w |} /\
  match fst (ask_model upstream prompt budget w) with
  | Ok a =>
      exists s : str, model_output (upstream (api_calls w) call) = Some s /\ a = strip s
  | Raise e =>
      model_output (upstream (api_calls w) call) = None /\
      exn_class e = "Exception" /\
      exn_str e = lit "API Error: " ++ exn_str (upstream_error (upstream (api_calls w) call))
  end.
Proof.
  intros call. unfold ask_model, try_except, mbind, M_bind, create.
  fold call.
  destruct (upstream (api_calls w) call) as [[[|[[[s|]]] cs]]|e]; cbn.
  - auto.
  - split; [reflexivity|]. now exists s.
  - auto.
  - auto.
Qed.

(** ** The prompt *)

Lemma build_prompt_len (text question : str) :
  len (build_prompt text question) = len text + len question + 135.
Proof.
  unfold len, build_prompt, nl. rewrite !length_app.
  repeat match goal with
    | |- context [length (lit ?s)] =>
        let n := eval vm_compute in (length (lit s)) in
        change (length (lit s)) with n
    end.
  cbn [length]. lia.
Qed.

Lemma startswith_app (p x : str) : startswith (p ++ x) p = true.
Proof.
  induction p as [|c p IH]; [now destruct x|]. simpl. now rewrite N.eqb_refl, IH.
Qed.

Lemma contains_app (a p b : str) : contains (a ++ p ++ b) p = true.
Proof.
  induction a as [|c a IH].
  - rewrite contains_unfold. simpl app. now rewrite startswith_app.
  - rewrite contains_unfold. cbn [app]. rewrite IH. apply orb_true_r.
Qed.

Lemma build_prompt_contains (text question : str) :
  contains (build_prompt text question) text = true /\
  contains (build_prompt text question) question = true.
Proof.
  split.
  - replace (build_prompt text question) with
      ((lit "Based on the following course material, please answer the question." ++
        nl ++ nl ++ lit "Course Material:" ++ nl) ++
       text ++
       (nl ++ nl ++ lit "Question: " ++ question ++ nl ++ nl ++
        lit "Provide a clear and concise answer."))
      by (unfold build_prompt; now rewrite <- !app_assoc).
    apply contains_app.
  - replace (build_prompt text question) with
      ((lit "Based on the following course material, please answer the question." ++
        nl ++ nl ++ lit "Course Material:" ++ nl ++ text ++ nl ++ nl ++
        lit "Question: ") ++
       question ++
       (nl ++ nl ++ lit "Provide a clear and concise answer."))
      by (unfold build_prompt; now rewrite <- !app_assoc).
    apply contains_app.
Qed.

(** X12: every call the handler sends carries a prompt built from two
    validated fields: the user message is the template around a text of
    20 to 5000 characters and a question of 3 to 300, both of which
    occur in it, and it has 135 characters more than the two together,
    so between 158 and 5435. *)
Theorem outbound_prompt_bounded
    (upstream : list chat_request -> chat_request -> outcome)
    (r : request) (w : world) (call : chat_request) :
  api_calls (snd (ask upstream r w)) = api_calls w ++ [call] ->
  exists text question prompt : str,
    messages call = [ {| role := lit "system"; content := SYSTEM_PROMPT |};
                      {| role := lit "user"; content := prompt |} ] /\
    prompt = build_prompt text question /\
    20 <= len text <= 5000 /\ 3 <= len question <= 300 /\
    len prompt = len text + len question + 135 /\
    158 <= len prompt <= 5435 /\
    contains prompt text = true /\ contains prompt question = true.
Proof.
  assert (Hsame : api_calls w = api_calls w ++ [call] -> False).
  { intros H. apply (f_equal length) in H. rewrite length_app in H. simpl in H. lia. }
  assert (Hsent : forall text question,
            spec_first_failure text question = None ->
            api_calls w ++ [spec_call (build_prompt text question)] = api_calls w ++ [call] ->
            exists text question prompt : str,
              messages call = [ {| role := lit "system"; content := SYSTEM_PROMPT |};
                                {| role := lit "user"; content := prompt |} ] /\
              prompt = build_prompt text question /\
              20 <= len text <= 5000 /\ 3 <= len question <= 300 /\
              len prompt = len text + len question + 135 /\
              158 <= len prompt <= 5435 /\
              contains prompt text = true /\ contains prompt question = true).
  { intros text question Hf H. apply app_inv_head in H. injection H as <-.
    apply spec_first_failure_None in Hf. destruct Hf as [Hlt Hlq].
    pose proof (build_prompt_len text question) as Hlen.
    destruct (build_prompt_contains text question) as [Hct Hcq].
    exists text, question, (build_prompt text question).
    repeat (split; [reflexivity || assumption || lia|]). assumption. }
  destruct (ask_outcome_total upstream r w) as
    [d text question msg Ht Hq Hf|d text question s Ht Hq Hf Ho
     |r e w' Hfail Hp|r e e' w' Hfail Hp];
    cbn [snd printed sent api_calls].
  - intros H. now destruct (Hsame H).
  - now apply (Hsent text question).
  - clear Hp.
    destruct Hfail as [e0|data Hno|d e0 Ht|d text e0 Ht Hq|d text question Ht Hq Hf Ho];
      cbn [sent api_calls]; intros H;
      try (now destruct (Hsame H)); now apply (Hsent text question).
  - clear Hp.
    destruct Hfail as [e0|data Hno|d e0 Ht|d text e0 Ht Hq|d text question Ht Hq Hf Ho];
      cbn [sent api_calls]; intros H;
      try (now destruct (Hsame H)); now apply (Hsent text question).
Qed.

Lemma outbound_prompt_bounded_witness :
  exists text question prompt : str,
    messages (spec_call (build_prompt lecture what_is_ml)) =
      [ {| role := lit "system"; content := SYSTEM_PROMPT |};
        {| role := lit "user"; content := prompt |} ] /\
    prompt = build_prompt text question /\
    20 <= len text <= 5000 /\ 3 <= len question <= 300 /\
    len prompt = len text + len question + 135 /\
    158 <= len prompt <= 5435 /\
    contains prompt text = true /\ contains prompt question = true.
Proof.
  exact (outbound_prompt_bounded (upstream_raises (lit "timeout"))
           (post (PStr lecture) (PStr what_is_ml)) w0
           (spec_call (build_prompt lecture what_is_ml))
           ltac:(vm_compute; reflexivity)).
Defined.

(** X13: the template does not mark where the text ends: a text that
    holds the separator (two line feeds and [Question: ]) followed by
    [b], asked with [c], gives the very prompt of the text cut before
    the separator asked with [b], the separator and [c]. *)
Theorem prompt_boundary_ambiguous (a b c : str) :
  build_prompt (a ++ question_separator ++ b) c =
  build_prompt a (b ++ question_separator ++ c).
Proof.
  unfold build_prompt, question_separator. rewrite <- !app_assoc. reflexivity.
Qed.

(** ** Start-up *)

(** X14: the module starts exactly when [OPENAI_API_KEY] is set to a
    non-empty string, and then hands that very string to the client,
    untrimmed, and prints nothing.  When the variable is unset or set to
    the empty string it exits with code 1 after printing its three
    lines.  It never calls the remote service. *)
Theorem startup_requires_key (environ : gmap str str) (w : world) :
  (forall key : str,
     fst (startup environ w) = Started key <->
     environ !! lit "OPENAI_API_KEY" = Some key /\ key <> []) /\
  (forall code : Z,
     fst (startup environ w) = Exited code <->
     code = 1 /\
     (environ !! lit "OPENAI_API_KEY" = None \/ environ !! lit "OPENAI_API_KEY" = Some [])) /\
  api_calls (snd (startup environ w)) = api_calls w /\
  stdout (snd (startup environ w)) =
    match fst (startup environ w) with
    | Started _ => stdout w
    | Exited _ => stdout w ++ key_missing_lines
    end.
Proof.
  unfold startup, getenv.
  destruct (environ !! lit "OPENAI_API_KEY") as [[|c key]|]; cbn;
    repeat split; intros; try reflexivity; intuition congruence.
Qed.

(** ** Independence of earlier requests *)

Lemma field_transport (data : pyval) (key : string) (w w' : world) (x : result str) :
  field data key w = (x, w) -> field data key w' = (x, w').
Proof.
  intros H. pose proof (field_any_world data key w w') as Hfst.
  pose proof (field_frame data key w') as Hsnd.
  destruct (field data key w') as [x' w1]. rewrite H in Hfst. simpl in *. congruence.
Qed.

(** The [try] block fails alike in two worlds where the remote service
    answers alike. *)
Lemma handling_fails_transport
    (upstream : list chat_request -> chat_request -> outcome)
    (r : request) (w w' w1 : world) (e : exn) :
  (forall req : chat_request,
     upstream (api_calls w) req = upstream (api_calls w') req) ->
  handling_fails upstream w r e w1 ->
  exists w1' : world, handling_fails upstream w' r e w1'.
Proof.
  intros Hup [e0|data Hno|d e0 Ht|d text e0 Ht Hq|d text question Ht Hq Hf Ho].
  - exists w'. constructor.
  - exists w'. now constructor.
  - exists w'. apply fails_bad_text. exact (field_transport _ _ _ w' _ Ht).
  - exists w'. apply (fails_bad_question upstream w' d text).
    + exact (field_transport _ _ _ w' _ Ht).
    + exact (field_transport _ _ _ w' _ Hq).
  - exists (sent w' (spec_call (build_prompt text question))). rewrite Hup.
    apply fails_upstream.
    + exact (field_transport _ _ _ w' _ Ht).
    + exact (field_transport _ _ _ w' _ Hq).
    + exact Hf.
    + rewrite <- Hup. exact Ho.
Qed.

(** X15: the handler keeps no state between requests: the response to a
    request depends on the world only through what the remote service
    answers, so in two worlds where the remote service answers alike
    (whatever was printed or sent before) the response is the same. *)
Theorem ask_stateless
    (upstream : list chat_request -> chat_request -> outcome)
    (r : request) (w w' : world) :
  (forall req : chat_request,
     upstream (api_calls w) req = upstream (api_calls w') req) ->
  fst (ask upstream r w) = fst (ask upstream r w').
Proof.
  intros Hup.
  destruct (ask_outcome_total upstream r w) as
    [d text question msg Ht Hq Hf|d text question s Ht Hq Hf Ho
     |r e w1 Hfail Hp|r e e' w1 Hfail Hp].
  - now rewrite (ask_rejected upstream d text question msg w'
                   (field_transport _ _ _ w' _ Ht) (field_transport _ _ _ w' _ Hq) Hf).
  - rewrite (ask_accepted upstream d text question w'
               (field_transport _ _ _ w' _ Ht) (field_transport _ _ _ w' _ Hq) Hf).
    rewrite <- Hup, Ho. reflexivity.
  - destruct (handling_fails_transport upstream r w w' w1 e Hup Hfail) as [w1' Hfail'].
    rewrite (handling_fails_caught upstream r w' w1' e Hfail'), ask_except_run, Hp.
    reflexivity.
  - destruct (handling_fails_transport upstream r w w' w1 e Hup Hfail) as [w1' Hfail'].
    rewrite (handling_fails_caught upstream r w' w1' e Hfail'), ask_except_run, Hp.
    reflexivity.
Qed.

Lemma ask_stateless_witness :
  fst (ask (upstream_answers lecture) (post (PStr lecture) (PStr what_is_ml)) w0) =
  fst (ask (upstream_answers lecture) (post (PStr lecture) (PStr what_is_ml))
         (snd (ask (upstream_answers lecture) (post (PStr (chars 97 30)) (PInt 7)) w0))).
Proof.
  exact (ask_stateless (upstream_answers lecture)
           (post (PStr lecture) (PStr what_is_ml)) w0
           (snd (ask (upstream_answers lecture) (post (PStr (chars 97 30)) (PInt 7)) w0))
           (fun req => eq_refl)).
Defined.

(** ** Blank fields and fixed messages *)

Lemma first_failure_in_table (text question msg : str) :
  spec_first_failure text question = Some msg ->
  msg ∈ [msg_no_text; msg_no_question; msg_text_short; msg_question_short;
         msg_text_long; msg_question_long].
Proof.
  unfold spec_first_failure. rewrite spec_checks_len.
  cbn [List.find fst snd fmap option_fmap option_map].
  repeat match goal with
    | |- context [if ?b then _ else _] =>
        destruct b; cbn [List.find fst snd fmap option_fmap option_map]
    end;
    intros H; try discriminate H; injection H as <-;
    repeat first [apply list_elem_of_here | apply list_elem_of_further].
Qed.

(** X16: a text that is absent, falsy or made of whitespace only counts
    as missing, and a missing text is reported before anything about
    the question: whenever the question normalises at all, the answer is
    400 with [Please provide lecture text.] and the adapter is not
    called. *)
Theorem blank_text_is_missing
    (upstream : list chat_request -> chat_request -> outcome)
    (d : gmap str pyval) (question : str) (w : world) :
  (d !! lit "text" = None \/
   (exists v : pyval, d !! lit "text" = Some v /\ truthy v = false) \/
   (exists s : str, d !! lit "text" = Some (PStr s) /\ forallb isspace s = true)) ->
  field (PDict d) "question" w = (Ok question, w) ->
  ask upstream (JsonBody (PDict d)) w =
  (Ok {| status := 400;
         body := PDict {[ lit "error" := PStr (lit "Please provide lecture text.") ]} |},
   w).
Proof.
  intros Hblank Hq.
  assert (Ht : field (PDict d) "text" w = (Ok [], w)).
  { destruct Hblank as [H|[(v & H & Hv)|(s & H & Hs)]].
    - now apply field_absent.
    - rewrite field_dict, H.
      change (py_strip (py_or v (PStr [])) w = (Ok [], w)).
      unfold py_or. now rewrite Hv.
    - rewrite (field_str d "text" s w H). now rewrite (proj2 (strip_nil_iff s) Hs). }
  apply (ask_rejected upstream d [] question msg_no_text w Ht Hq).
  now apply first_failure_table.
Qed.

Lemma blank_text_is_missing_witness :
  ask (upstream_answers lecture)
    (post (PStr [32; 9; 10; 160; 12288]%N) (PStr (chars 113 400))) w0 =
  (Ok (json_response 400 "error" (lit "Please provide lecture text.")), w0).
Proof.
  apply (blank_text_is_missing (upstream_answers lecture)
           (json_body (PStr [32; 9; 10; 160; 12288]%N) (PStr (chars 113 400)))
           (chars 113 400) w0).
  - right. right. exists [32; 9; 10; 160; 12288]%N. split; vm_compute; reflexivity.
  - vm_compute. reflexivity.
Defined.

(** X17: error bodies are fixed texts: whatever the request and the
    remote service, the message of a 400 answer is one of the six
    validation messages and the message of a 500 answer is the generic
    one; nothing of the request or of the failure is echoed. *)
Theorem error_messages_are_fixed
    (upstream : list chat_request -> chat_request -> outcome)
    (r : request) (w : world) (code : Z) (msg : str) :
  fst (ask upstream r w) = Ok (json_response code "error" msg) ->
  (code = 400 /\
   msg ∈ [msg_no_text; msg_no_question; msg_text_short; msg_question_short;
          msg_text_long; msg_question_long]) \/
  (code = 500 /\ msg = msg_generic).
Proof.
  assert (Hkeys : lit "answer" <> lit "error") by (vm_compute; discriminate).
  assert (Hinj : forall c c' m m', Ok (json_response c "error" m) =
                                   Ok (json_response c' "error" m') ->
                                   c = c' /\ m = m').
  { intros c c' m m' H.
    assert (Hc : c = c').
    { apply (f_equal (fun x => match x with Ok y => status y | Raise _ => 0 end)) in H.
      exact H. }
    subst c'. split; [reflexivity|]. apply (json_response_inj c "error"). congruence. }
  destruct (ask_outcome_total upstream r w) as
    [d text question msg' Ht Hq Hf|d text question s Ht Hq Hf Ho
     |r e w' Hfail Hp|r e e' w' Hfail Hp];
    cbn [fst]; intros H.
  3: apply Hinj in H; destruct H as [<- <-]; now right.
  3: discriminate H.
  - apply Hinj in H. destruct H as [<- <-]. left. split; [reflexivity|].
    now apply (first_failure_in_table text question).
  - exfalso.
    apply (f_equal (fun x => match x with
                             | Ok y => match body y with
                                       | PDict m => m !! lit "answer"
                                       | _ => None
                                       end
                             | Raise _ => None
                             end)) in H.
    change (({[lit "answer" := PStr (strip s)]} : gmap str pyval) !! lit "answer" =
            ({[lit "error" := PStr msg]} : gmap str pyval) !! lit "answer") in H.
    rewrite lookup_singleton_eq, lookup_singleton_ne in H by now apply not_eq_sym.
    discriminate H.
Qed.

Lemma error_messages_are_fixed_witness :
  (400 = 400 /\
   msg_text_short ∈ [msg_no_text; msg_no_question; msg_text_short; msg_question_short;
                     msg_text_long; msg_question_long]) \/
  (400 = 500 /\ msg_text_short = msg_generic).
Proof.
  exact (error_messages_are_fixed (upstream_answers lecture)
           (post (PStr (lit "<b>hi</b>")) (PStr what_is_ml)) w0
           400 msg_text_short ltac:(vm_compute; reflexivity)).
Defined.
